(** * compute_manager: the configuration loader, the lifecycle requests and
    the operation wait loop of [compute_manager.py], as interaction trees.

    The Python program talks to three collaborators: the file system (the
    per-instance [config.yml]), the Compute Engine client (image lookup,
    instance insert, instance delete, zone-operation status) and the
    terminal (logging, [print], [time.sleep]).  Each call to one of them is
    an event; a [world] answers the events and records them in a trace, so
    that a statement such as "exactly three status queries" is a statement
    about the trace. *)

From Stdlib Require Import String Ascii List ZArith Lia Bool DecimalString.
From ITree Require Import ITree Events.Exception.
Import ListNotations.
Import ITreeNotations.
Local Open Scope string_scope.
Local Open Scope itree_scope.
Set Warnings "-register-all".

(** ** Python values

    What [yaml.safe_load] and the client's [execute()] hand to the program:
    null, booleans, integers, strings, sequences and mappings with string
    keys (floats and timestamps are left out).  A mapping keeps its entries
    in order, as a Python dict does. *)

Inductive value : Type :=
| VNone
| VBool (b : bool)
| VInt (z : Z)
| VStr (s : string)
| VList (items : list value)
| VDict (entries : list (string * value)).

(** The exceptions the program can end with.  [FileNotFoundError] and the
    other failures of [open] carry the path [open] was given ([OSError] also
    its errno, for the failures that have no class of their own, such as a
    name that is too long), [KeyError] the missing key, [HttpError] the
    detail the client library reports, and [Exception] the argument of
    [raise Exception(result['error'])]. *)

Inductive exn : Type :=
| FileNotFoundError (path : string)
| NotADirectoryError (path : string)
| IsADirectoryError (path : string)
| PermissionError (path : string)
| OSError (errno : Z) (path : string)
| UnicodeDecodeError
| YAMLError
| KeyError (key : string)
| TypeError
| HttpError (detail : value)
| Exception (payload : value).

(** [except FileNotFoundError] catches that class only: the other failures
    of [open] are its siblings under [OSError], not its subclasses. *)
Definition is_file_not_found (e : exn) : bool :=
  match e with
  | FileNotFoundError _ => true
  | _ => false
  end.

Fixpoint lookup (key : string) (entries : list (string * value)) : option value :=
  match entries with
  | [] => None
  | (k, v) :: rest => if String.eqb key k then Some v else lookup key rest
  end.

(** [obj[key]] with a string key: defined on mappings only. *)
Definition getitem (obj : value) (key : string) : exn + value :=
  match obj with
  | VDict entries =>
      match lookup key entries with
      | Some v => inr v
      | None => inl (KeyError key)
      end
  | _ => inl TypeError
  end.

(** [key in obj].  The program evaluates it only after [obj[...]] has
    succeeded, that is on a mapping (see [getitem_mapping]). *)
Definition contains (key : string) (obj : value) : bool :=
  match obj with
  | VDict entries =>
      match lookup key entries with Some _ => true | None => false end
  | _ => false
  end.

(** [v == s] for a string literal [s]. *)
Definition eq_str (v : value) (s : string) : bool :=
  match v with
  | VStr s' => String.eqb s' s
  | _ => false
  end.

(** ** [str()]

    Python's [str()] and [repr()] on these values, for strings whose
    characters are the code points below 256 (one per character of a Rocq
    string).  A string is its own [str()]; inside a sequence or a mapping it
    is shown by [repr()], in single quotes unless it has a single quote and
    no double quote, with backslash escapes for the quote, the backslash,
    tab, newline and carriage return, and [\xNN] for the other characters
    that are not printable. *)

Definition hex_digit (n : nat) : ascii :=
  nth n (list_ascii_of_string "0123456789abcdef") "0"%char.

Definition hex2 (c : ascii) : string :=
  String (hex_digit (nat_of_ascii c / 16))
         (String (hex_digit (nat_of_ascii c mod 16)) "").

(** [str.isprintable] on the code points below 256. *)
Definition printable (c : ascii) : bool :=
  let n := nat_of_ascii c in
  (((32 <=? n) && (n <=? 126)) || ((161 <=? n) && negb (n =? 173)))%nat.

Definition double_quote : ascii := ascii_of_nat 34.

Definition repr_char (quote c : ascii) : string :=
  if Ascii.eqb c quote || Ascii.eqb c "\"%char then String "\"%char (String c "")
  else if Ascii.eqb c "009"%char then "\t"
  else if Ascii.eqb c "010"%char then "\n"
  else if Ascii.eqb c "013"%char then "\r"
  else if printable c then String c ""
  else "\x" ++ hex2 c.

Definition repr_str (s : string) : string :=
  let chars := list_ascii_of_string s in
  let quote :=
    if existsb (Ascii.eqb "'"%char) chars
       && negb (existsb (Ascii.eqb double_quote) chars)
    then double_quote else "'"%char in
  String quote (String.concat "" (map (repr_char quote) chars) ++ String quote "").

Definition str_int (z : Z) : string := NilZero.string_of_int (Z.to_int z).

Fixpoint repr (v : value) : string :=
  match v with
  | VNone => "None"
  | VBool true => "True"
  | VBool false => "False"
  | VInt z => str_int z
  | VStr s => repr_str s
  | VList items =>
      "[" ++ (fix join (l : list value) : string :=
                match l with
                | [] => ""
                | [x] => repr x
                | x :: rest => repr x ++ ", " ++ join rest
                end) items ++ "]"
  | VDict entries =>
      "{" ++ (fix join (l : list (string * value)) : string :=
                match l with
                | [] => ""
                | [(k, x)] => repr_str k ++ ": " ++ repr x
                | (k, x) :: rest =>
                    repr_str k ++ ": " ++ repr x ++ ", " ++ join rest
                end) entries ++ "}"
  end.

Definition builtin_str (v : value) : string :=
  match v with
  | VStr s => s
  | _ => repr v
  end.

(** ** Events

    [Open path] is [open(path, 'r')] together with the reading of the file:
    it answers the text, or the exception that opening or reading raises.
    The answer is a value, because the loader has a handler for one of these
    exceptions. *)

Variant fileE : Type -> Type :=
| Open (path : string) : fileE (exn + string).

Variant consoleE : Type -> Type :=
| LogError (msg : string) : consoleE unit
| LogInfo (msg : string) : consoleE unit
| Print (msg : string) : consoleE unit
| Sleep (seconds : nat) : consoleE unit.

Variant computeE : Type -> Type :=
| Build : computeE unit
| ImagesGetFromFamily (project family : value) : computeE value
| InstancesInsert (project zone : string) (body : value) : computeE value
| InstancesDelete (project zone instance : string) : computeE value
| ZoneOperationsGet (project zone : string) (operation : value) : computeE value.

Definition pyE : Type -> Type := fileE +' consoleE +' computeE +' exceptE exn.

(** A Python expression that may raise, made a step of the program. *)
Definition lift {A : Type} (r : exn + A) : itree pyE A :=
  match r with
  | inl e => throw e
  | inr a => Ret a
  end.

(** ** The program *)

Module ComputeResource.

(** The attributes [__init__] sets.  The three configuration attributes hold
    whatever the YAML document has under their keys; name, project and zone
    are the strings the command line gives. *)
Record t : Type := {
  instance_family : value;
  instance_project : value;
  machine_type : value;
  instance_name : string;
  project : string;
  zone : string
}.

Definition config_path (instance_name : string) : string :=
  "configs/" ++ instance_name ++ "/config.yml".

Section Library.

(** [yaml.safe_load] on the text of a file, and [str()] on an object that is
    not a string: both belong to the Python libraries, not to this program.
    [builtin_str] above is that [str()] on the values of this model. *)
Variable yaml_safe_load : string -> exn + value.
Variable py_str : value -> string.

(** A replacement field [{v}] of an f-string. *)
Definition format (v : value) : string :=
  match v with
  | VStr s => s
  | _ => py_str v
  end.

(** [__init__].  The [try] block holds both [open] and [yaml.safe_load]; its
    one handler logs and re-raises a [FileNotFoundError], and every other
    exception of the block goes through untouched.  The three subscripts
    come after the block. *)
Definition __init__ (instance_name project zone : string) : itree pyE t :=
  stream <- trigger (Open (config_path instance_name)) ;;
  match match stream with
        | inl e => inl e
        | inr text => yaml_safe_load text
        end with
  | inl e =>
      (if is_file_not_found e then
         trigger (LogError ("Could not find config at path `"
                            ++ config_path instance_name ++ "`"))
       else Ret tt) ;;
      throw e
  | inr info =>
      family <- lift (getitem info "instance_family") ;;
      image_project <- lift (getitem info "instance_project") ;;
      mtype <- lift (getitem info "machine_type") ;;
      Ret {| instance_family := family;
             instance_project := image_project;
             machine_type := mtype;
             instance_name := instance_name;
             project := project;
             zone := zone |}
  end.

Definition machine_type_url (self : t) : string :=
  "zones/" ++ zone self ++ "/machineTypes/" ++ format (machine_type self).

Definition config (self : t) (source_disk_image : value) : value :=
  VDict [
    ("name", VStr (instance_name self));
    ("machineType", VStr (machine_type_url self));
    ("disks", VList [
       VDict [
         ("boot", VBool true);
         ("autoDelete", VBool true);
         ("initializeParams", VDict [("sourceImage", source_disk_image)])
       ]
     ]);
    ("networkInterfaces", VList [
       VDict [
         ("network", VStr "global/networks/default");
         ("accessConfigs", VList [
            VDict [("type", VStr "ONE_TO_ONE_NAT"); ("name", VStr "External NAT")]
          ])
       ]
     ]);
    ("serviceAccounts", VList [
       VDict [
         ("email", VStr "default");
         ("scopes", VList [
            VStr "https://www.googleapis.com/auth/devstorage.read_write";
            VStr "https://www.googleapis.com/auth/logging.write"
          ])
       ]
     ])
  ].

Definition create (self : t) : itree pyE value :=
  image_response <- trigger (ImagesGetFromFamily (instance_project self)
                                                 (instance_family self)) ;;
  source_disk_image <- lift (getitem image_response "selfLink") ;;
  trigger (InstancesInsert (project self) (zone self)
                           (config self source_disk_image)).

Definition delete (self : t) : itree pyE value :=
  trigger (InstancesDelete (project self) (zone self) (instance_name self)).

End Library.

End ComputeResource.

(** [wait_for_operation]: [while True] is [ITree.iter]; an iteration ends
    with [inr result] at [return result] and with [inl tt] after the sleep. *)
Definition wait_for_operation (project zone : string) (operation : value)
  : itree pyE value :=
  ITree.iter (fun _ : unit =>
    result <- trigger (ZoneOperationsGet project zone operation) ;;
    status <- lift (getitem result "status") ;;
    if eq_str status "DONE" then
      trigger (Print "done.") ;;
      if contains "error" result then
        err <- lift (getitem result "error") ;;
        throw (Exception err)
      else Ret (inr result)
    else
      trigger (Sleep 1) ;;
      Ret (inl tt)) tt.

Section Commands.

Variable yaml_safe_load : string -> exn + value.
Variable py_str : value -> string.

(** The [create] command; [Build] is [init_gcp_compute_client()].  The
    callback of the click group only configures logging and is left out. *)
Definition create (instance_name project zone : string) : itree pyE unit :=
  compute_resource <- ComputeResource.__init__ yaml_safe_load
                        instance_name project zone ;;
  trigger (LogInfo ("Issuing create command for instance `" ++ instance_name
                    ++ "` in zone " ++ zone ++ " and project " ++ project
                    ++ "...")) ;;
  trigger Build ;;
  create_operation <- ComputeResource.create py_str compute_resource ;;
  name <- lift (getitem create_operation "name") ;;
  wait_for_operation project zone name ;;
  trigger (LogInfo "Instance created successfully!").

(** The [delete] command. *)
Definition delete (instance_name project zone : string) : itree pyE unit :=
  compute_resource <- ComputeResource.__init__ yaml_safe_load
                        instance_name project zone ;;
  trigger (LogInfo ("Issuing delete command for instance `" ++ instance_name
                    ++ "` in zone " ++ zone ++ " and project " ++ project
                    ++ "...")) ;;
  trigger Build ;;
  delete_operation <- ComputeResource.delete compute_resource ;;
  name <- lift (getitem delete_operation "name") ;;
  wait_for_operation project zone name ;;
  trigger (LogInfo "Instance deleted successfully!").

End Commands.

(** ** Worlds

    An [environment] fixes what the collaborators answer: the text of each
    file, or the exception that opening or reading it raises
    ([FileNotFoundError] where there is none, [NotADirectoryError] where a
    plain file is in the way, and so on), whether the client can be built,
    and the result of [execute()] for each request, either a response or the
    exception the client library raises.  The answer to a status query may
    change from one query to the next, so it also depends on the number of
    queries made before.  A [world] is the state that evolves: that number of
    queries and the trace of the events so far, oldest first. *)

Inductive action : Type :=
| AOpen (path : string)
| ALogError (msg : string)
| ALogInfo (msg : string)
| APrint (msg : string)
| ASleep (seconds : nat)
| ABuild
| AGetFromFamily (project family : value)
| AInsert (project zone : string) (body : value)
| ADelete (project zone instance : string)
| AGet (project zone : string) (operation : value).

Record environment : Type := {
  files : string -> exn + string;
  discovery_build : exn + unit;
  images_getFromFamily : value -> value -> exn + value;
  instances_insert : string -> string -> value -> exn + value;
  instances_delete : string -> string -> string -> exn + value;
  zoneOperations_get : nat -> string -> string -> value -> exn + value
}.

Record world : Type := {
  polls : nat;
  trace : list action
}.

Definition start : world := {| polls := 0; trace := [] |}.

Definition record (a : action) (w : world) : world :=
  {| polls := polls w; trace := trace w ++ [a] |}.

Definition polled (a : action) (w : world) : world :=
  {| polls := S (polls w); trace := trace w ++ [a] |}.

Definition handle_file (c : environment) {X} (e : fileE X) (w : world)
  : (exn + X) * world :=
  match e in fileE T return (exn + T) * world with
  | Open path => (inr (files c path), record (AOpen path) w)
  end.

Definition handle_console {X} (e : consoleE X) (w : world)
  : (exn + X) * world :=
  match e in consoleE T return (exn + T) * world with
  | LogError msg => (inr tt, record (ALogError msg) w)
  | LogInfo msg => (inr tt, record (ALogInfo msg) w)
  | Print msg => (inr tt, record (APrint msg) w)
  | Sleep n => (inr tt, record (ASleep n) w)
  end.

Definition handle_compute (c : environment) {X} (e : computeE X) (w : world)
  : (exn + X) * world :=
  match e in computeE T return (exn + T) * world with
  | Build => (discovery_build c, record ABuild w)
  | ImagesGetFromFamily p f =>
      (images_getFromFamily c p f, record (AGetFromFamily p f) w)
  | InstancesInsert p z b =>
      (instances_insert c p z b, record (AInsert p z b) w)
  | InstancesDelete p z i =>
      (instances_delete c p z i, record (ADelete p z i) w)
  | ZoneOperationsGet p z o =>
      (zoneOperations_get c (polls w) p z o, polled (AGet p z o) w)
  end.

Definition handle_except {X} (e : exceptE exn X) (w : world)
  : (exn + X) * world :=
  match e in exceptE _ T return (exn + T) * world with
  | Throw ex => (inl ex, w)
  end.

Definition handle (c : environment) {X} (e : pyE X) (w : world)
  : (exn + X) * world :=
  match e with
  | inl1 fe => handle_file c fe w
  | inr1 (inl1 ce) => handle_console ce w
  | inr1 (inr1 (inl1 ge)) => handle_compute c ge w
  | inr1 (inr1 (inr1 xe)) => handle_except xe w
  end.

(** How far a program has got: it returned, it raised, or it is still
    running when the fuel is spent. *)
Inductive outcome (R : Type) : Type :=
| Returned (r : R)
| Raised (e : exn)
| Running.
Arguments Returned {R} r.
Arguments Raised {R} e.
Arguments Running {R}.

Definition outcome_of {R : Type} (r : exn + R) : outcome R :=
  match r with
  | inl e => Raised e
  | inr a => Returned a
  end.

(** [run c fuel t w]: the program [t] in environment [c] from world [w], for
    at most [fuel] steps (an event, a loop turn or the final return each cost
    one). *)
Fixpoint run {R : Type} (c : environment) (fuel : nat) (t : itree pyE R)
    (w : world) : outcome R * world :=
  match fuel with
  | 0 => (Running, w)
  | S fuel' =>
      match observe t with
      | RetF r => (Returned r, w)
      | TauF t' => run c fuel' t' w
      | VisF e k =>
          match handle c e w with
          | (inr x, w') => run c fuel' (k x) w'
          | (inl ex, w') => (Raised ex, w')
          end
      end
  end.

(** A reply to a status query that keeps the loop going: a response with a
    status other than DONE. *)
Definition non_terminal (reply : exn + value) : bool :=
  match reply with
  | inr result =>
      match getitem result "status" with
      | inr status => negb (eq_str status "DONE")
      | inl _ => false
      end
  | inl _ => false
  end.

(** A reply that is a response with a status at all. *)
Definition reports_status (reply : exn + value) : bool :=
  match reply with
  | inr result =>
      match getitem result "status" with
      | inr _ => true
      | inl _ => false
      end
  | inl _ => false
  end.

(** From world [w] on, the next [n] status queries get non-terminal replies. *)
Definition prefix (c : environment) (project zone : string) (operation : value)
    (w : world) (n : nat) : Prop :=
  forall k, k < n ->
    non_terminal (zoneOperations_get c (polls w + k) project zone operation) = true.

(** From world [w] on, the first reply with status DONE comes after
    non-terminal replies only and carries [payload] under "error". *)
Definition first_done_has_error (c : environment) (project zone : string)
    (operation : value) (w : world) (payload : value) : Prop :=
  exists n result,
    prefix c project zone operation w n /\
    zoneOperations_get c (polls w + n) project zone operation = inr result /\
    getitem result "status" = inr (VStr "DONE") /\
    getitem result "error" = inr payload.

(** The world after [n] more turns of the loop that saw no DONE. *)
Fixpoint turns (project zone : string) (operation : value) (n : nat)
  : list action :=
  match n with
  | 0 => []
  | S n' => AGet project zone operation :: ASleep 1
            :: turns project zone operation n'
  end.

Definition after (project zone : string) (operation : value) (n : nat)
    (w : world) : world :=
  {| polls := polls w + n;
     trace := trace w ++ turns project zone operation n |}.

(** The number of status queries in a trace. *)
Fixpoint queries (l : list action) : nat :=
  match l with
  | [] => 0
  | AGet _ _ _ :: rest => S (queries rest)
  | _ :: rest => queries rest
  end.

Definition is_null (v : value) : bool :=
  match v with
  | VNone => true
  | _ => false
  end.

(** A descriptor with no null configuration attribute (name, project and
    zone are strings and cannot be null). *)
Definition fully_populated (d : ComputeResource.t) : bool :=
  negb (is_null (ComputeResource.instance_family d))
  && negb (is_null (ComputeResource.instance_project d))
  && negb (is_null (ComputeResource.machine_type d)).


(** The requests of the lifecycle operations. *)
Definition lifecycle_request (a : action) : bool :=
  match a with
  | AGetFromFamily _ _ | AInsert _ _ _ | ADelete _ _ _ => true
  | _ => false
  end.

(** An action that is no lifecycle request. *)
Definition quiet (a : action) : Prop := lifecycle_request a = false.

(** What the loader's [try] block comes to: the parsed document, or the
    exception of [open] or of the parser. *)
Definition parsed (yaml_safe_load : string -> exn + value) (c : environment)
    (name : string) : exn + value :=
  match files c (ComputeResource.config_path name) with
  | inl e => inl e
  | inr text => yaml_safe_load text
  end.

(** [d] is the descriptor the loader builds for [name], [project] and [zone]:
    the file is there, it parses, and the three keys are in it. *)
Definition loaded (yaml_safe_load : string -> exn + value) (c : environment)
    (name project zone : string) (d : ComputeResource.t) : Prop :=
  exists text info,
    files c (ComputeResource.config_path name) = inr text /\
    yaml_safe_load text = inr info /\
    getitem info "instance_family" = inr (ComputeResource.instance_family d) /\
    getitem info "instance_project" = inr (ComputeResource.instance_project d) /\
    getitem info "machine_type" = inr (ComputeResource.machine_type d) /\
    ComputeResource.instance_name d = name /\
    ComputeResource.project d = project /\
    ComputeResource.zone d = zone.

(** The lifecycle request [a] is the one [create] or [delete] makes on [d]. *)
Definition requested_on (py_str : value -> string) (d : ComputeResource.t)
    (a : action) : Prop :=
  match a with
  | AGetFromFamily image_project family =>
      image_project = ComputeResource.instance_project d /\
      family = ComputeResource.instance_family d
  | AInsert project zone body =>
      project = ComputeResource.project d /\
      zone = ComputeResource.zone d /\
      exists image, body = ComputeResource.config py_str d image
  | ADelete project zone instance =>
      project = ComputeResource.project d /\
      zone = ComputeResource.zone d /\
      instance = ComputeResource.instance_name d
  | _ => False
  end.

(** What the handler writes to the trace for an event. *)
Definition action_of {X} (e : pyE X) : list action :=
  match e with
  | inl1 (Open path) => [AOpen path]
  | inr1 (inl1 (LogError msg)) => [ALogError msg]
  | inr1 (inl1 (LogInfo msg)) => [ALogInfo msg]
  | inr1 (inl1 (Print msg)) => [APrint msg]
  | inr1 (inl1 (Sleep n)) => [ASleep n]
  | inr1 (inr1 (inl1 Build)) => [ABuild]
  | inr1 (inr1 (inl1 (ImagesGetFromFamily p f))) => [AGetFromFamily p f]
  | inr1 (inr1 (inl1 (InstancesInsert p z b))) => [AInsert p z b]
  | inr1 (inr1 (inl1 (InstancesDelete p z i))) => [ADelete p z i]
  | inr1 (inr1 (inl1 (ZoneOperationsGet p z o))) => [AGet p z o]
  | inr1 (inr1 (inr1 _)) => []
  end.

(** From [w] to [w'] the trace only grew, by actions that satisfy [P]. *)
Definition grows (P : action -> Prop) (w w' : world) : Prop :=
  exists l, trace w' = (trace w ++ l)%list /\ Forall P l.

(** Whatever the program [t] adds to the trace satisfies [P]. *)
Definition emits {R} (c : environment) (t : itree pyE R) (P : action -> Prop)
  : Prop :=
  forall fuel w out w', run c fuel t w = (out, w') -> grows P w w'.

(** The program [t] can return [a]. *)
Definition returns {R} (c : environment) (t : itree pyE R) (a : R) : Prop :=
  exists fuel w w', run c fuel t w = (Returned a, w').

(** The keys the loader reads, in the order it reads them, and the first of
    them that a mapping lacks. *)
Definition config_keys : list string :=
  ["instance_family"; "instance_project"; "machine_type"].

Definition first_missing (entries : list (string * value)) : option string :=
  find (fun key => negb (contains key (VDict entries))) config_keys.

Definition is_mapping (v : value) : bool :=
  match v with
  | VDict _ => true
  | _ => false
  end.

(** ** Sample data

    What PyYAML makes of two one-line documents, a provider that knows one
    image family, and scripted replies to the status queries.  In the sample
    file system [configs/worker-1] and [configs/worker-2] are directories
    with a [config.yml], [configs/notes.txt] is a plain file, and nothing
    else is there. *)

Definition worker_yaml : string :=
  "{instance_family: debian-12, instance_project: debian-cloud, machine_type: e2-medium}".

Definition null_machine_type_yaml : string :=
  "{instance_family: debian-12, instance_project: debian-cloud, machine_type: null}".

Definition sample_safe_load (text : string) : exn + value :=
  if String.eqb text worker_yaml then
    inr (VDict [("instance_family", VStr "debian-12");
                ("instance_project", VStr "debian-cloud");
                ("machine_type", VStr "e2-medium")])
  else if String.eqb text null_machine_type_yaml then
    inr (VDict [("instance_family", VStr "debian-12");
                ("instance_project", VStr "debian-cloud");
                ("machine_type", VNone)])
  else inl YAMLError.

Definition debian_12 : value :=
  VDict [("selfLink", VStr "projects/debian-cloud/global/images/debian-12-bookworm")].

Definition not_found : exn :=
  HttpError (VStr "404 Not Found").

Definition pending : value := VDict [("name", VStr "operation-1"); ("status", VStr "PENDING")].
Definition running : value := VDict [("name", VStr "operation-1"); ("status", VStr "RUNNING")].
Definition done : value := VDict [("name", VStr "operation-1"); ("status", VStr "DONE")].
Definition quota_exceeded : value :=
  VDict [("errors", VList [VDict [("code", VStr "QUOTA_EXCEEDED")]])].
Definition done_with_error : value :=
  VDict [("name", VStr "operation-1"); ("status", VStr "DONE");
         ("error", quota_exceeded)].

(** The replies of a script in order, then RUNNING for ever. *)
Definition scripted (script : list (exn + value)) (k : nat) : exn + value :=
  nth k script (inr running).

Definition sample_env (script : list (exn + value)) : environment := {|
  files := fun path =>
    if String.eqb path "configs/worker-1/config.yml" then inr worker_yaml
    else if String.eqb path "configs/worker-2/config.yml" then inr null_machine_type_yaml
    else if String.eqb path "configs/notes.txt/config.yml"
    then inl (NotADirectoryError path)
    else inl (FileNotFoundError path);
  discovery_build := inr tt;
  images_getFromFamily := fun image_project family =>
    match image_project, family with
    | VStr p, VStr f =>
        if String.eqb p "debian-cloud" && String.eqb f "debian-12"
        then inr debian_12 else inl not_found
    | _, _ => inl not_found
    end;
  instances_insert := fun _ _ _ => inr pending;
  instances_delete := fun _ _ _ => inr pending;
  zoneOperations_get := fun k _ _ _ => scripted script k
|}.

Definition worker_1 : ComputeResource.t := {|
  ComputeResource.instance_family := VStr "debian-12";
  ComputeResource.instance_project := VStr "debian-cloud";
  ComputeResource.machine_type := VStr "e2-medium";
  ComputeResource.instance_name := "worker-1";
  ComputeResource.project := "my-project";
  ComputeResource.zone := "us-east1-b"
|}.

Definition worker_2 : ComputeResource.t := {|
  ComputeResource.instance_family := VStr "debian-12";
  ComputeResource.instance_project := VStr "debian-cloud";
  ComputeResource.machine_type := VNone;
  ComputeResource.instance_name := "worker-2";
  ComputeResource.project := "my-project";
  ComputeResource.zone := "us-east1-b"
|}.

(** More documents: one that does not parse, an empty one (PyYAML gives
    [None]) and one without [instance_project]. *)
Definition unclosed_yaml : string := "instance_family: [".

Definition no_project_yaml : string :=
  "{instance_family: debian-12, machine_type: e2-medium}".

Definition more_safe_load (text : string) : exn + value :=
  if String.eqb text "" then inr VNone
  else if String.eqb text no_project_yaml then
    inr (VDict [("instance_family", VStr "debian-12");
                ("machine_type", VStr "e2-medium")])
  else sample_safe_load text.

Definition more_files (path : string) : exn + string :=
  if String.eqb path "configs/unclosed/config.yml" then inr unclosed_yaml
  else if String.eqb path "configs/empty/config.yml" then inr ""
  else if String.eqb path "configs/no-project/config.yml" then inr no_project_yaml
  else files (sample_env []) path.

(** [sample_env] with these files, and with given answers to the client
    construction and to the insert and delete requests. *)
Definition sample_env_with (build : exn + unit) (submitted : exn + value)
    (script : list (exn + value)) : environment := {|
  files := more_files;
  discovery_build := build;
  images_getFromFamily := images_getFromFamily (sample_env script);
  instances_insert := fun _ _ _ => submitted;
  instances_delete := fun _ _ _ => submitted;
  zoneOperations_get := zoneOperations_get (sample_env script)
|}.


(** * Properties *)

(** ** Values *)

Lemma builtin_str_samples :
  builtin_str (VStr "e2-medium") = "e2-medium" /\
  builtin_str VNone = "None" /\
  builtin_str (VInt (-42)) = "-42" /\
  builtin_str (VList [VStr "a"; VInt 7; VNone; VBool true; VList []])
    = "['a', 7, None, True, []]" /\
  builtin_str (VDict [("cores", VInt 2); ("family", VStr "e2")])
    = "{'cores': 2, 'family': 'e2'}".
Proof. repeat split; reflexivity. Qed.

(** ** Running a program *)

Lemma run_more {R} c fuel : forall (t : itree pyE R) w o w',
  run c fuel t w = (o, w') -> o <> Running ->
  forall extra, run c (fuel + extra) t w = (o, w').
Proof.
  induction fuel as [|fuel IH]; intros t w o w' H Ho extra.
  - simpl in H. inversion H; subst. congruence.
  - simpl in *. destruct (observe t) as [r|t'|X e k].
    + assumption.
    + now apply IH.
    + destruct (handle c e w) as [[ex|x] w1].
      * assumption.
      * now apply IH.
Qed.


Lemma observe_bind_cases {E A B} (t : itree E A) (k : A -> itree E B) :
  observe (ITree.bind t k) =
  match observe t with
  | RetF a => observe (k a)
  | TauF t' => TauF (ITree.bind t' k)
  | VisF e h => VisF e (fun x => ITree.bind (h x) k)
  end.
Proof.
  change (observe (ITree.bind t k)) with
    (observe (match observe t with
              | RetF a => k a
              | TauF t' => Tau (ITree.bind t' k)
              | VisF e h => Vis e (fun x => ITree.bind (h x) k)
              end)).
  destruct (observe t); reflexivity.
Qed.

Lemma observe_iter {E I R} (body : I -> itree E (I + R)) (i : I) :
  observe (ITree.iter body i) =
  observe (ITree.bind (body i) (fun lr =>
             match lr with
             | inl l => Tau (ITree.iter body l)
             | inr r => Ret r
             end)).
Proof. reflexivity. Qed.

Lemma run_observe {R} c fuel (t u : itree pyE R) w :
  observe t = observe u -> run c fuel t w = run c fuel u w.
Proof. intros H. destruct fuel; simpl; [reflexivity|]. now rewrite H. Qed.

Lemma run_iter {I R} c fuel (body : I -> itree pyE (I + R)) (i : I) w :
  run c fuel (ITree.iter body i) w =
  run c fuel (ITree.bind (body i) (fun lr =>
                match lr with
                | inl l => Tau (ITree.iter body l)
                | inr r => Ret r
                end)) w.
Proof. apply run_observe, observe_iter. Qed.

Lemma run_bind_ret {A R} c fuel (a : A) (k : A -> itree pyE R) w :
  run c fuel (ITree.bind (Ret a) k) w = run c fuel (k a) w.
Proof. apply run_observe. reflexivity. Qed.

Lemma run_bind_bind {A B R} c fuel : forall (t : itree pyE A)
    (k : A -> itree pyE B) (h : B -> itree pyE R) w,
  run c fuel (ITree.bind (ITree.bind t k) h) w =
  run c fuel (ITree.bind t (fun a => ITree.bind (k a) h)) w.
Proof.
  induction fuel as [|fuel IH]; intros t k h w; [reflexivity|].
  cbn [run]. rewrite !observe_bind_cases.
  destruct (observe t) as [a|t'|X e g].
  - now rewrite observe_bind_cases.
  - apply IH.
  - destruct (handle c e w) as [[ex|x] w1]; [reflexivity|]. apply IH.
Qed.

Lemma run_bind_trigger {F X R} `{F -< pyE} c fuel (e : F X) (k : X -> itree pyE R) w :
  run c (S fuel) (ITree.bind (trigger e) k) w =
  match handle c (subevent _ e) w with
  | (inl ex, w') => (Raised ex, w')
  | (inr x, w') => run c fuel (k x) w'
  end.
Proof.
  simpl. destruct (handle c (subevent X e) w) as [[ex|x] w1]; [reflexivity|].
  apply run_bind_ret.
Qed.

Lemma run_trigger {F X} `{F -< pyE} c fuel (e : F X) w :
  run c (S (S fuel)) (trigger e) w =
  match handle c (subevent _ e) w with
  | (inl ex, w') => (Raised ex, w')
  | (inr x, w') => (Returned x, w')
  end.
Proof.
  simpl. destruct (handle c (subevent X e) w) as [[ex|x] w1]; reflexivity.
Qed.

Lemma run_bind_lift {A R} c fuel (r : exn + A) (k : A -> itree pyE R) w :
  run c (S fuel) (ITree.bind (lift r) k) w =
  match r with
  | inl e => (Raised e, w)
  | inr a => run c (S fuel) (k a) w
  end.
Proof. destruct r as [e|a]; reflexivity. Qed.

Lemma run_throw {R} c fuel (e : exn) w :
  run c (S fuel) (throw e : itree pyE R) w = (Raised e, w).
Proof. reflexivity. Qed.

Arguments ComputeResource.config_path : simpl never.
Arguments String.append : simpl never.

(** Replace [handle c e w] by the world's answer to the event [e]. *)
Ltac answer :=
  match goal with
  | |- context [handle ?c ?e ?w] =>
      let r := eval cbn in (handle c e w) in
      change (handle c e w) with r; cbv beta iota
  end.

Lemma wait_step c p z o w fuel :
  run c (S (S (S fuel))) (wait_for_operation p z o) w =
    let w1 := polled (AGet p z o) w in
    match zoneOperations_get c (polls w) p z o with
    | inl e => (Raised e, w1)
    | inr result =>
        match getitem result "status" with
        | inl e => (Raised e, w1)
        | inr status =>
            if eq_str status "DONE" then
              let w2 := record (APrint "done.") w1 in
              if contains "error" result then
                match getitem result "error" with
                | inl e => (Raised e, w2)
                | inr err => (Raised (Exception err), w2)
                end
              else (Returned result, w2)
            else run c fuel (wait_for_operation p z o) (record (ASleep 1) w1)
        end
    end.
Proof.
  unfold wait_for_operation at 1.
  rewrite run_iter, run_bind_bind, run_bind_trigger. answer.
  destruct (zoneOperations_get c (polls w) p z o) as [e|result]; [reflexivity|].
  rewrite run_bind_bind, run_bind_lift.
  destruct (getitem result "status") as [e|status]; [reflexivity|].
  destruct (eq_str status "DONE").
  - rewrite !run_bind_bind, run_bind_trigger. answer.
    destruct (contains "error" result).
    + rewrite run_bind_bind, run_bind_lift.
      destruct (getitem result "error"); reflexivity.
    + reflexivity.
  - rewrite run_bind_bind, run_bind_trigger. answer.
    reflexivity.
Qed.

(** ** The wait loop *)

Lemma eq_str_true v s : eq_str v s = true <-> v = VStr s.
Proof.
  destruct v; simpl; split; try discriminate.
  - intros H. apply String.eqb_eq in H. now subst.
  - intros H. inversion H. apply String.eqb_refl.
Qed.

Lemma getitem_mapping obj key v :
  getitem obj key = inr v -> exists entries, obj = VDict entries.
Proof. destruct obj; simpl; try discriminate. eauto. Qed.

Lemma contains_getitem key obj :
  contains key obj = true -> exists v, getitem obj key = inr v.
Proof.
  destruct obj; simpl; try discriminate.
  destruct (lookup key entries); [eauto | discriminate].
Qed.

Lemma getitem_contains key obj v :
  getitem obj key = inr v -> contains key obj = true.
Proof.
  destruct obj; simpl; try discriminate.
  destruct (lookup key entries); [reflexivity | discriminate].
Qed.

Lemma after_0 p z o w : after p z o 0 w = w.
Proof.
  destruct w as [k l]. unfold after. simpl.
  now rewrite Nat.add_0_r, app_nil_r.
Qed.

Lemma after_S p z o n w :
  after p z o n (record (ASleep 1) (polled (AGet p z o) w)) = after p z o (S n) w.
Proof.
  unfold after. simpl. f_equal.
  - lia.
  - now rewrite <- !app_assoc.
Qed.

Lemma queries_app l1 l2 : queries (l1 ++ l2) = queries l1 + queries l2.
Proof.
  induction l1 as [|a l1 IH]; [reflexivity|].
  destruct a; simpl; rewrite IH; reflexivity.
Qed.

Lemma queries_turns p z o n : queries (turns p z o n) = n.
Proof. induction n as [|n IH]; simpl; congruence. Qed.

Section WaitLoop.

Variable c : environment.
Variables project zone : string.
Variable operation : value.

Let reply (k : nat) : exn + value := zoneOperations_get c k project zone operation.
Let wait : itree pyE value := wait_for_operation project zone operation.

(** A turn that sees a status other than DONE costs three steps. *)
Lemma wait_again w fuel :
  non_terminal (reply (polls w)) = true ->
  run c (3 + fuel) wait w = run c fuel wait (after project zone operation 1 w).
Proof.
  intros H. subst wait reply. cbv beta in *. simpl "+". rewrite wait_step. cbv zeta.
  unfold non_terminal in H.
  destruct (zoneOperations_get c (polls w) project zone operation) as [e|result];
    [discriminate|].
  destruct (getitem result "status") as [e|status]; [discriminate|].
  destruct (eq_str status "DONE"); [discriminate|].
  now rewrite <- after_S, after_0.
Qed.

(** The turn that sees anything else ends the loop, whatever fuel is left. *)
Lemma wait_last w fuel :
  non_terminal (reply (polls w)) = false ->
  run c (3 + fuel) wait w = run c 3 wait w.
Proof.
  intros H. subst wait reply. cbv beta in *. simpl "+". rewrite !wait_step. cbv zeta.
  unfold non_terminal in H.
  destruct (zoneOperations_get c (polls w) project zone operation) as [e|result];
    [reflexivity|].
  destruct (getitem result "status") as [e|status]; [reflexivity|].
  destruct (eq_str status "DONE"); [reflexivity | discriminate].
Qed.

Let prefix : world -> nat -> Prop := prefix c project zone operation.

Lemma prefix_S w n :
  prefix w (S n) ->
  non_terminal (reply (polls w)) = true /\
  prefix (after project zone operation 1 w) n.
Proof.
  intros H. split.
  - rewrite <- (Nat.add_0_r (polls w)). apply H. lia.
  - intros k Hk. simpl. replace (polls w + 1 + k) with (polls w + S k) by lia.
    apply H. lia.
Qed.

Lemma after_add n w :
  after project zone operation n (after project zone operation 1 w)
  = after project zone operation (S n) w.
Proof.
  unfold after. simpl. f_equal; [lia|]. now rewrite <- !app_assoc.
Qed.

Lemma wait_prefix n : forall w fuel,
  prefix w n ->
  run c (3 * n + fuel) wait w = run c fuel wait (after project zone operation n w).
Proof.
  induction n as [|n IH]; intros w fuel H.
  - now rewrite after_0.
  - apply prefix_S in H. destruct H as [H0 H].
    replace (3 * S n + fuel) with (3 + (3 * n + fuel)) by lia.
    rewrite (wait_again _ _ H0), (IH _ _ H). now rewrite after_add.
Qed.

(** A run that has ended went through a prefix of non-terminal replies and
    ended on the turn after it. *)
Lemma wait_ended fuel : forall w out w',
  run c fuel wait w = (out, w') -> out <> Running ->
  exists n, prefix w n /\
    non_terminal (reply (polls w + n)) = false /\
    run c 3 wait (after project zone operation n w) = (out, w').
Proof.
  induction fuel as [fuel IH] using (well_founded_induction lt_wf).
  intros w out w' Hrun Hout.
  destruct (non_terminal (reply (polls w))) eqn:Hnt.
  - destruct (Nat.lt_ge_cases fuel 3) as [Hlt|Hge].
    + exfalso. pose proof (run_more _ _ _ _ _ _ Hrun Hout (3 - fuel)) as Hrun3.
      replace (fuel + (3 - fuel)) with (3 + 0) in Hrun3 by lia.
      rewrite (wait_again _ _ Hnt) in Hrun3. simpl in Hrun3. congruence.
    + replace fuel with (3 + (fuel - 3)) in Hrun by lia.
      rewrite (wait_again _ _ Hnt) in Hrun.
      destruct (IH (fuel - 3) ltac:(lia) _ _ _ Hrun Hout) as (n & Hp & Hn & Hlast).
      exists (S n). rewrite after_add in Hlast. simpl in Hn.
      replace (polls w + 1 + n) with (polls w + S n) in Hn by lia.
      split; [|split; assumption].
      intros k Hk. destruct k as [|k].
      * now rewrite Nat.add_0_r.
      * replace (polls w + S k) with (polls w + 1 + k) by lia.
        apply (Hp k). lia.
  - exists 0. rewrite after_0, Nat.add_0_r.
    split; [intros k Hk; lia|]. split; [assumption|].
    pose proof (run_more _ _ _ _ _ _ Hrun Hout 3) as Hrun3.
    replace (fuel + 3) with (3 + fuel) in Hrun3 by lia.
    now rewrite (wait_last _ _ Hnt) in Hrun3.
Qed.

(** What the last turn makes of the reply it sees. *)
Lemma wait_settles w out w' :
  run c 3 wait w = (out, w') ->
  match reply (polls w) with
  | inl e => out = Raised e /\ w' = polled (AGet project zone operation) w
  | inr result =>
      match getitem result "status" with
      | inl e => out = Raised e /\ w' = polled (AGet project zone operation) w
      | inr status =>
          if eq_str status "DONE" then
            w' = record (APrint "done.") (polled (AGet project zone operation) w) /\
            match getitem result "error" with
            | inr err => out = Raised (Exception err)
            | inl _ => out = Returned result
            end
          else out = Running
      end
  end.
Proof.
  subst wait reply. cbv beta. rewrite wait_step. cbv zeta.
  destruct (zoneOperations_get c (polls w) project zone operation) as [e|result].
  { intros H. inversion H. auto. }
  destruct (getitem result "status") as [e|status] eqn:Hs.
  { intros H. inversion H. auto. }
  destruct (eq_str status "DONE"); [|simpl; congruence].
  destruct (contains "error" result) eqn:Hc.
  - destruct (contains_getitem _ _ Hc) as [err Herr]. rewrite Herr.
    intros H. inversion H. auto.
  - destruct (getitem result "error") as [e|err] eqn:Herr.
    + intros H. inversion H. auto.
    + apply getitem_contains in Herr. congruence.
Qed.

End WaitLoop.

(** C1: when the provider reports RUNNING, RUNNING and then DONE with no
    error payload, the wait loop makes exactly three status queries, sleeping
    one second after each of the first two, and returns the third response. *)
Theorem wait_running_running_done c p z o w r0 r1 r2 fuel :
  polls w = 0 ->
  zoneOperations_get c 0 p z o = inr r0 ->
  getitem r0 "status" = inr (VStr "RUNNING") ->
  zoneOperations_get c 1 p z o = inr r1 ->
  getitem r1 "status" = inr (VStr "RUNNING") ->
  zoneOperations_get c 2 p z o = inr r2 ->
  getitem r2 "status" = inr (VStr "DONE") ->
  contains "error" r2 = false ->
  9 <= fuel ->
  run c fuel (wait_for_operation p z o) w =
    (Returned r2,
     {| polls := 3;
        trace := trace w ++ [AGet p z o; ASleep 1; AGet p z o; ASleep 1;
                             AGet p z o; APrint "done."] |}) /\
  queries (trace (snd (run c fuel (wait_for_operation p z o) w)))
    = queries (trace w) + 3.
Proof.
  intros Hw H0 S0 H1 S1 H2 S2 E2 Hfuel.
  assert (Hrun : run c fuel (wait_for_operation p z o) w =
    (Returned r2,
     {| polls := 3;
        trace := trace w ++ [AGet p z o; ASleep 1; AGet p z o; ASleep 1;
                             AGet p z o; APrint "done."] |})).
  { replace fuel with (9 + (fuel - 9)) by lia.
    apply run_more; [|discriminate].
    change 9 with (3 * 2 + 3). rewrite wait_prefix.
    - rewrite wait_step. cbv zeta. simpl polls. rewrite Hw. simpl.
      rewrite H2, S2. simpl. rewrite E2.
      unfold record, polled. simpl. rewrite Hw, <- !app_assoc. reflexivity.
    - intros k Hk. rewrite Hw. unfold non_terminal.
      destruct k as [|[|k]]; simpl; [rewrite H0, S0 | rewrite H1, S1 | lia];
        reflexivity. }
  split; [assumption|].
  rewrite Hrun. simpl. rewrite queries_app. reflexivity.
Qed.

Lemma wait_running_running_done_witness :
  run (sample_env [inr running; inr running; inr done]) 9
      (wait_for_operation "my-project" "us-east1-b" (VStr "operation-1")) start =
    (Returned done,
     {| polls := 3;
        trace := [AGet "my-project" "us-east1-b" (VStr "operation-1"); ASleep 1;
                  AGet "my-project" "us-east1-b" (VStr "operation-1"); ASleep 1;
                  AGet "my-project" "us-east1-b" (VStr "operation-1");
                  APrint "done."] |}) /\
  queries (trace (snd (run (sample_env [inr running; inr running; inr done]) 9
      (wait_for_operation "my-project" "us-east1-b" (VStr "operation-1")) start)))
    = 3.
Proof.
  apply (wait_running_running_done
           (sample_env [inr running; inr running; inr done])
           "my-project" "us-east1-b" (VStr "operation-1") start
           running running done 9); reflexivity || lia.
Defined.

(** C2: when the provider reports RUNNING and then DONE with the error
    payload [E], the wait loop makes exactly two status queries and raises
    [Exception(E)], the payload being the value under "error" as it came. *)
Theorem wait_running_done_error c p z o w r0 r1 E fuel :
  polls w = 0 ->
  zoneOperations_get c 0 p z o = inr r0 ->
  getitem r0 "status" = inr (VStr "RUNNING") ->
  zoneOperations_get c 1 p z o = inr r1 ->
  getitem r1 "status" = inr (VStr "DONE") ->
  getitem r1 "error" = inr E ->
  6 <= fuel ->
  run c fuel (wait_for_operation p z o) w =
    (Raised (Exception E),
     {| polls := 2;
        trace := trace w ++ [AGet p z o; ASleep 1; AGet p z o; APrint "done."] |}) /\
  queries (trace (snd (run c fuel (wait_for_operation p z o) w)))
    = queries (trace w) + 2.
Proof.
  intros Hw H0 S0 H1 S1 E1 Hfuel.
  assert (Hrun : run c fuel (wait_for_operation p z o) w =
    (Raised (Exception E),
     {| polls := 2;
        trace := trace w ++ [AGet p z o; ASleep 1; AGet p z o; APrint "done."] |})).
  { replace fuel with (6 + (fuel - 6)) by lia.
    apply run_more; [|discriminate].
    change 6 with (3 * 1 + 3). rewrite wait_prefix.
    - rewrite wait_step. cbv zeta. simpl polls. rewrite Hw. simpl.
      rewrite H1, S1. simpl. rewrite (getitem_contains _ _ _ E1), E1.
      unfold record, polled. simpl. rewrite Hw, <- !app_assoc. reflexivity.
    - intros k Hk. rewrite Hw. unfold non_terminal.
      destruct k as [|k]; simpl; [rewrite H0, S0 | lia]; reflexivity. }
  split; [assumption|].
  rewrite Hrun. simpl. rewrite queries_app. reflexivity.
Qed.

Lemma wait_running_done_error_witness :
  run (sample_env [inr running; inr done_with_error]) 6
      (wait_for_operation "my-project" "us-east1-b" (VStr "operation-1")) start =
    (Raised (Exception quota_exceeded),
     {| polls := 2;
        trace := [AGet "my-project" "us-east1-b" (VStr "operation-1"); ASleep 1;
                  AGet "my-project" "us-east1-b" (VStr "operation-1");
                  APrint "done."] |}) /\
  queries (trace (snd (run (sample_env [inr running; inr done_with_error]) 6
      (wait_for_operation "my-project" "us-east1-b" (VStr "operation-1")) start)))
    = 2.
Proof.
  apply (wait_running_done_error
           (sample_env [inr running; inr done_with_error])
           "my-project" "us-east1-b" (VStr "operation-1") start
           running done_with_error quota_exceeded 6); reflexivity || lia.
Defined.

(** Every run of the loop that has ended: it went through [m] non-terminal
    replies, and the next reply decided the outcome. *)
Lemma wait_outcome c p z o fuel w out w' :
  run c fuel (wait_for_operation p z o) w = (out, w') -> out <> Running ->
  exists m, prefix c p z o w m /\ polls w' = polls w + S m /\
    non_terminal (zoneOperations_get c (polls w + m) p z o) = false /\
    match zoneOperations_get c (polls w + m) p z o with
    | inl e => out = Raised e
    | inr result =>
        match getitem result "status" with
        | inl e => out = Raised e
        | inr status =>
            status = VStr "DONE" /\
            match getitem result "error" with
            | inr err => out = Raised (Exception err)
            | inl _ => out = Returned result
            end
        end
    end.
Proof.
  intros Hrun Hout.
  destruct (wait_ended _ _ _ _ _ _ _ _ Hrun Hout) as (m & Hp & Hnt & Hlast).
  exists m. split; [assumption|].
  apply wait_settles in Hlast. simpl polls in Hlast.
  destruct (zoneOperations_get c (polls w + m) p z o) as [e|result].
  { destruct Hlast as [-> ->]. simpl. repeat split; trivial; lia. }
  destruct (getitem result "status") as [e|status].
  { destruct Hlast as [-> ->]. simpl. repeat split; trivial; lia. }
  destruct (eq_str status "DONE") eqn:Hdone; [|congruence].
  destruct Hlast as [-> Hlast]. apply eq_str_true in Hdone.
  simpl. repeat split; trivial; lia.
Qed.

Lemma wait_first_query c p z o w :
  polls (snd (run c 1 (wait_for_operation p z o) w)) = S (polls w).
Proof.
  unfold wait_for_operation.
  rewrite run_iter, run_bind_bind, run_bind_trigger. answer.
  destruct (zoneOperations_get c (polls w) p z o); reflexivity.
Qed.

(** C3, as stated, fails: after one RUNNING status the second status query
    itself raises, and the loop fails with that exception although no
    response with status DONE was ever observed. *)
Lemma wait_fails_before_done :
  prefix (sample_env [inr running; inl not_found])
    "my-project" "us-east1-b" (VStr "operation-1") start 1 /\
  run (sample_env [inr running; inl not_found]) 4
      (wait_for_operation "my-project" "us-east1-b" (VStr "operation-1")) start
  = (Raised not_found,
     {| polls := 2;
        trace := [AGet "my-project" "us-east1-b" (VStr "operation-1"); ASleep 1;
                  AGet "my-project" "us-east1-b" (VStr "operation-1")] |}) /\
  (forall k result,
     k < 2 ->
     scripted [inr running; inl not_found] k = inr result ->
     getitem result "status" <> inr (VStr "DONE")).
Proof.
  split; [|split].
  - intros k Hk. destruct k as [|k]; [reflexivity | lia].
  - reflexivity.
  - intros k result Hk Hreply. destruct k as [|[|k]]; [| |lia].
    + inversion Hreply; subst. discriminate.
    + discriminate Hreply.
Qed.

(** C3, amended: over any prefix of [n] non-terminal statuses the loop
    neither returns nor raises: after those [n] queries (and [n] sleeps) it
    is still running and makes the next query; a run that has ended made
    more than [n] queries and ended on a reply that is not a non-terminal
    status; a run that returned did so on a response whose status is DONE;
    and a run that raised did so on a status query that itself raised, on a
    response without a status, or on a response with status DONE and an
    "error" entry. *)
Theorem wait_keeps_polling c p z o w n :
  prefix c p z o w n ->
  run c (3 * n) (wait_for_operation p z o) w = (Running, after p z o n w) /\
  queries (trace (after p z o n w)) = queries (trace w) + n /\
  polls (snd (run c (3 * n + 1) (wait_for_operation p z o) w)) = polls w + n + 1 /\
  (forall fuel out w',
     run c fuel (wait_for_operation p z o) w = (out, w') -> out <> Running ->
     polls w + n < polls w' /\
     non_terminal (zoneOperations_get c (polls w' - 1) p z o) = false) /\
  (forall fuel result w',
     run c fuel (wait_for_operation p z o) w = (Returned result, w') ->
     zoneOperations_get c (polls w' - 1) p z o = inr result /\
     getitem result "status" = inr (VStr "DONE")) /\
  (forall fuel e w',
     run c fuel (wait_for_operation p z o) w = (Raised e, w') ->
     zoneOperations_get c (polls w' - 1) p z o = inl e \/
     exists result,
       zoneOperations_get c (polls w' - 1) p z o = inr result /\
       (getitem result "status" = inl e \/
        getitem result "status" = inr (VStr "DONE") /\
        exists payload,
          getitem result "error" = inr payload /\ e = Exception payload)).
Proof.
  intros Hp.
  split; [|split; [|split; [|split; [|split]]]].
  - rewrite <- (Nat.add_0_r (3 * n)). now rewrite wait_prefix.
  - unfold after. simpl. now rewrite queries_app, queries_turns.
  - rewrite wait_prefix by assumption. rewrite wait_first_query. simpl. lia.
  - intros fuel out w' Hrun Hout.
    destruct (wait_outcome _ _ _ _ _ _ _ _ Hrun Hout) as (m & Hm & Hpolls & Hnt & _).
    assert (n <= m).
    { destruct (Nat.le_gt_cases n m) as [|Hlt]; [assumption|].
      rewrite (Hp m Hlt) in Hnt. discriminate. }
    split; [lia|].
    replace (polls w' - 1) with (polls w + m) by lia. assumption.
  - intros fuel result w' Hrun.
    destruct (wait_outcome _ _ _ _ _ _ _ _ Hrun ltac:(discriminate))
      as (m & Hm & Hpolls & Hnt & Hout).
    replace (polls w' - 1) with (polls w + m) by lia.
    destruct (zoneOperations_get c (polls w + m) p z o) as [e|reply];
      [discriminate|].
    destruct (getitem reply "status") as [e|status] eqn:Hstatus; [discriminate|].
    destruct Hout as [-> Hout].
    destruct (getitem reply "error"); [|discriminate].
    inversion Hout. auto.
  - intros fuel e w' Hrun.
    destruct (wait_outcome _ _ _ _ _ _ _ _ Hrun ltac:(discriminate))
      as (m & Hm & Hpolls & Hnt & Hout).
    replace (polls w' - 1) with (polls w + m) by lia.
    destruct (zoneOperations_get c (polls w + m) p z o) as [e'|reply].
    { inversion Hout. now left. }
    right. exists reply. split; [reflexivity|].
    destruct (getitem reply "status") as [e'|status].
    { inversion Hout. now left. }
    destruct Hout as [-> Hout]. right. split; [reflexivity|].
    destruct (getitem reply "error") as [e'|err]; [discriminate|].
    inversion Hout. now exists err.
Qed.

Lemma wait_keeps_polling_witness :
  run (sample_env [inr pending; inr running; inr running; inr done]) 9
      (wait_for_operation "my-project" "us-east1-b" (VStr "operation-1")) start
    = (Running,
       after "my-project" "us-east1-b" (VStr "operation-1") 3 start).
Proof.
  apply (wait_keeps_polling
           (sample_env [inr pending; inr running; inr running; inr done])
           "my-project" "us-east1-b" (VStr "operation-1") start 3).
  intros k Hk. destruct k as [|[|[|k]]]; [reflexivity .. | lia].
Defined.

(** C10, as stated, fails: when the first status query itself fails with an
    HTTP error, [wait_for_operation] raises that error although no response
    with status DONE, and so no error payload, was ever observed. *)
Lemma wait_raises_without_done :
  run (sample_env [inl not_found]) 3
      (wait_for_operation "my-project" "us-east1-b" (VStr "operation-1")) start
    = (Raised not_found,
       {| polls := 1;
          trace := [AGet "my-project" "us-east1-b" (VStr "operation-1")] |}) /\
  forall payload,
    ~ first_done_has_error (sample_env [inl not_found])
        "my-project" "us-east1-b" (VStr "operation-1") start payload.
Proof.
  split; [reflexivity|].
  intros payload (n & result & Hp & Hreply & _).
  destruct n as [|n].
  - discriminate Hreply.
  - specialize (Hp 0 ltac:(lia)). discriminate Hp.
Qed.

(** C10, amended: whenever [wait_for_operation] returns, the value is the
    response to its last status query, that response has status DONE and no
    "error" entry, and every earlier reply was non-terminal.  Whenever it
    raises, it does so on the reply that follows the non-terminal ones: the
    exception of a status query that failed, the [KeyError] or [TypeError] of
    a response without a status, or [Exception] of the "error" entry of a
    response with status DONE.  So when every status query is answered by a
    response that has a status, it raises exactly when the first response
    with status DONE has an "error" entry, and what it raises is [Exception]
    of that entry. *)
Theorem wait_returns_or_raises c p z o w :
  (forall fuel result w',
     run c fuel (wait_for_operation p z o) w = (Returned result, w') ->
     exists n, prefix c p z o w n /\ polls w' = polls w + S n /\
       zoneOperations_get c (polls w + n) p z o = inr result /\
       getitem result "status" = inr (VStr "DONE") /\
       contains "error" result = false) /\
  (forall fuel e w',
     run c fuel (wait_for_operation p z o) w = (Raised e, w') ->
     exists n, prefix c p z o w n /\ polls w' = polls w + S n /\
       (zoneOperations_get c (polls w + n) p z o = inl e \/
        exists result,
          zoneOperations_get c (polls w + n) p z o = inr result /\
          (getitem result "status" = inl e \/
           getitem result "status" = inr (VStr "DONE") /\
           exists payload,
             getitem result "error" = inr payload /\ e = Exception payload))) /\
  ((forall k, reports_status (zoneOperations_get c k p z o) = true) ->
   forall e,
     (exists fuel w', run c fuel (wait_for_operation p z o) w = (Raised e, w')) <->
     (exists payload, e = Exception payload /\
                      first_done_has_error c p z o w payload)).
Proof.
  split; [|split].
  - intros fuel result w' Hrun.
    destruct (wait_outcome _ _ _ _ _ _ _ _ Hrun ltac:(discriminate))
      as (m & Hm & Hpolls & _ & Hout).
    exists m. split; [assumption|]. split; [assumption|].
    destruct (zoneOperations_get c (polls w + m) p z o) as [e|reply];
      [discriminate|].
    destruct (getitem reply "status") as [e|status] eqn:Hstatus; [discriminate|].
    destruct Hout as [-> Hout].
    destruct (getitem reply "error") as [e|err] eqn:Herr; [|discriminate].
    inversion Hout; subst. repeat split; trivial.
    destruct (contains "error" reply) eqn:Hc; [|reflexivity].
    apply contains_getitem in Hc. destruct Hc as [v Hv]. congruence.
  - intros fuel e w' Hrun.
    destruct (wait_outcome _ _ _ _ _ _ _ _ Hrun ltac:(discriminate))
      as (m & Hm & Hpolls & _ & Hout).
    exists m. split; [assumption|]. split; [assumption|].
    destruct (zoneOperations_get c (polls w + m) p z o) as [e'|reply].
    { inversion Hout. now left. }
    right. exists reply. split; [reflexivity|].
    destruct (getitem reply "status") as [e'|status].
    { inversion Hout. now left. }
    destruct Hout as [-> Hout]. right. split; [reflexivity|].
    destruct (getitem reply "error") as [e'|err]; [discriminate|].
    inversion Hout. now exists err.
  - intros Hall e. split.
    + intros (fuel & w' & Hrun).
      destruct (wait_outcome _ _ _ _ _ _ _ _ Hrun ltac:(discriminate))
        as (m & Hm & Hpolls & _ & Hout).
      specialize (Hall (polls w + m)). unfold reports_status in Hall.
      destruct (zoneOperations_get c (polls w + m) p z o) as [e'|reply] eqn:Hreply;
        [discriminate|].
      destruct (getitem reply "status") as [e'|status] eqn:Hstatus; [discriminate|].
      destruct Hout as [-> Hout].
      destruct (getitem reply "error") as [e'|err] eqn:Herr; [discriminate|].
      inversion Hout; subst. exists err. split; [reflexivity|].
      exists m, reply. auto.
    + intros (payload & -> & n & result & Hp & Hreply & Hstatus & Herr).
      exists (3 * n + 3). eexists.
      rewrite (wait_prefix _ _ _ _ n) by exact Hp.
      rewrite wait_step. cbv zeta. simpl polls.
      rewrite Hreply, Hstatus. simpl.
      rewrite (getitem_contains _ _ _ Herr), Herr. reflexivity.
Qed.

Lemma wait_returns_or_raises_witness :
  (exists n,
     prefix (sample_env [inr running; inr done]) "my-project" "us-east1-b"
       (VStr "operation-1") start n /\
     2 = 0 + S n /\
     scripted [inr running; inr done] (0 + n) = inr done /\
     getitem done "status" = inr (VStr "DONE") /\
     contains "error" done = false) /\
  ((exists fuel w',
      run (sample_env [inr running; inr done_with_error]) fuel
        (wait_for_operation "my-project" "us-east1-b" (VStr "operation-1")) start
      = (Raised (Exception quota_exceeded), w')) <->
   (exists payload,
      Exception quota_exceeded = Exception payload /\
      first_done_has_error (sample_env [inr running; inr done_with_error])
        "my-project" "us-east1-b" (VStr "operation-1") start payload)).
Proof.
  split.
  - apply (proj1 (wait_returns_or_raises
                    (sample_env [inr running; inr done])
                    "my-project" "us-east1-b" (VStr "operation-1") start)
                 6 done
                 {| polls := 2;
                    trace := [AGet "my-project" "us-east1-b" (VStr "operation-1");
                              ASleep 1;
                              AGet "my-project" "us-east1-b" (VStr "operation-1");
                              APrint "done."] |}).
    reflexivity.
  - apply (proj2 (proj2 (wait_returns_or_raises
                    (sample_env [inr running; inr done_with_error])
                    "my-project" "us-east1-b" (VStr "operation-1") start))).
    intros k. destruct k as [|[|k]]; [reflexivity | reflexivity |].
    unfold sample_env, scripted. simpl.
    destruct k; reflexivity.
Defined.

(** ** The configuration loader *)

Section Loader.

Variable yaml_safe_load : string -> exn + value.
Variable c : environment.
Variables instance_name project zone : string.

Let path : string := ComputeResource.config_path instance_name.
Let init : itree pyE ComputeResource.t :=
  ComputeResource.__init__ yaml_safe_load instance_name project zone.

(** When the [try] block raises, so does the loader, after the error line
    if the exception is a [FileNotFoundError]. *)
Lemma init_fails w fuel e :
  parsed yaml_safe_load c instance_name = inl e ->
  run c (3 + fuel) init w =
    (Raised e,
     if is_file_not_found e
     then record (ALogError ("Could not find config at path `" ++ path ++ "`"))
                 (record (AOpen path) w)
     else record (AOpen path) w).
Proof.
  intros Hparsed. subst init path. unfold ComputeResource.__init__. simpl "+".
  rewrite run_bind_trigger. answer.
  change (match files c (ComputeResource.config_path instance_name) with
          | inl e0 => inl e0
          | inr text => yaml_safe_load text
          end) with (parsed yaml_safe_load c instance_name).
  rewrite Hparsed. destruct (is_file_not_found e).
  - rewrite run_bind_trigger. answer. apply run_throw.
  - rewrite run_bind_ret. apply run_throw.
Qed.

(** An exception of the block that is no [FileNotFoundError] needs two steps
    only. *)
Lemma init_fails_quietly w fuel e :
  parsed yaml_safe_load c instance_name = inl e ->
  is_file_not_found e = false ->
  run c (2 + fuel) init w = (Raised e, record (AOpen path) w).
Proof.
  intros Hparsed Hquiet. subst init path. unfold ComputeResource.__init__.
  simpl "+". rewrite run_bind_trigger. answer.
  change (match files c (ComputeResource.config_path instance_name) with
          | inl e0 => inl e0
          | inr text => yaml_safe_load text
          end) with (parsed yaml_safe_load c instance_name).
  rewrite Hparsed, Hquiet. rewrite run_bind_ret. apply run_throw.
Qed.

(** With the document parsed, the loader comes to an end within two steps. *)
Lemma init_parsed w fuel info :
  parsed yaml_safe_load c instance_name = inr info ->
  run c (2 + fuel) init w =
    (match getitem info "instance_family" with
     | inl e => Raised e
     | inr family =>
         match getitem info "instance_project" with
         | inl e => Raised e
         | inr image_project =>
             match getitem info "machine_type" with
             | inl e => Raised e
             | inr mtype =>
                 Returned {| ComputeResource.instance_family := family;
                             ComputeResource.instance_project := image_project;
                             ComputeResource.machine_type := mtype;
                             ComputeResource.instance_name := instance_name;
                             ComputeResource.project := project;
                             ComputeResource.zone := zone |}
             end
         end
     end,
     record (AOpen path) w).
Proof.
  intros Hparsed. subst init path. unfold ComputeResource.__init__. simpl "+".
  rewrite run_bind_trigger. answer.
  change (match files c (ComputeResource.config_path instance_name) with
          | inl e0 => inl e0
          | inr text => yaml_safe_load text
          end) with (parsed yaml_safe_load c instance_name).
  rewrite Hparsed.
  rewrite run_bind_lift.
  destruct (getitem info "instance_family") as [e|family]; [reflexivity|].
  rewrite run_bind_lift.
  destruct (getitem info "instance_project") as [e|image_project]; [reflexivity|].
  rewrite run_bind_lift.
  destruct (getitem info "machine_type") as [e|mtype]; reflexivity.
Qed.

Lemma parsed_file text :
  files c path = inr text ->
  parsed yaml_safe_load c instance_name = yaml_safe_load text.
Proof. intros H. subst path. unfold parsed. now rewrite H. Qed.

Lemma init_file w fuel text info :
  files c path = inr text ->
  yaml_safe_load text = inr info ->
  run c (2 + fuel) init w =
    (match getitem info "instance_family" with
     | inl e => Raised e
     | inr family =>
         match getitem info "instance_project" with
         | inl e => Raised e
         | inr image_project =>
             match getitem info "machine_type" with
             | inl e => Raised e
             | inr mtype =>
                 Returned {| ComputeResource.instance_family := family;
                             ComputeResource.instance_project := image_project;
                             ComputeResource.machine_type := mtype;
                             ComputeResource.instance_name := instance_name;
                             ComputeResource.project := project;
                             ComputeResource.zone := zone |}
             end
         end
     end,
     record (AOpen path) w).
Proof.
  intros Hfile Hyaml. apply init_parsed.
  now rewrite (parsed_file _ Hfile).
Qed.

End Loader.

(** C5, as stated, fails: [configs/notes.txt] is a plain file, so no
    configuration exists for the name [notes.txt]; [open] raises
    [NotADirectoryError], which the handler does not catch, and the loader
    raises it with no error line and no mention of the expected path. *)
Lemma missing_config_without_log :
  files (sample_env []) (ComputeResource.config_path "notes.txt")
    = inl (NotADirectoryError "configs/notes.txt/config.yml") /\
  run (sample_env []) 2
    (ComputeResource.__init__ sample_safe_load "notes.txt" "my-project" "us-east1-b")
    start
  = (Raised (NotADirectoryError "configs/notes.txt/config.yml"),
     {| polls := 0; trace := [AOpen "configs/notes.txt/config.yml"] |}).
Proof. split; reflexivity. Qed.

(** C5, amended: when [open] fails on [configs/<name>/config.yml], the loader
    raises the exception [open] raised and at no point returns a descriptor.
    When that exception is [FileNotFoundError] it first logs an error that
    names the path; for any other failure of [open] it logs nothing. *)
Theorem init_missing_config yaml_safe_load c name project zone w e :
  files c (ComputeResource.config_path name) = inl e ->
  (forall fuel, 3 <= fuel ->
     run c fuel (ComputeResource.__init__ yaml_safe_load name project zone) w =
       (Raised e,
        {| polls := polls w;
           trace := trace w ++
             AOpen (ComputeResource.config_path name) ::
             (if is_file_not_found e
              then [ALogError ("Could not find config at path `"
                               ++ ComputeResource.config_path name ++ "`")]
              else []) |})) /\
  (forall fuel d w',
     run c fuel (ComputeResource.__init__ yaml_safe_load name project zone) w
     <> (Returned d, w')).
Proof.
  intros Hfile.
  assert (Hparsed : parsed yaml_safe_load c name = inl e).
  { unfold parsed. now rewrite Hfile. }
  assert (H3 : forall fuel, 3 <= fuel ->
     run c fuel (ComputeResource.__init__ yaml_safe_load name project zone) w =
       (Raised e,
        {| polls := polls w;
           trace := trace w ++
             AOpen (ComputeResource.config_path name) ::
             (if is_file_not_found e
              then [ALogError ("Could not find config at path `"
                               ++ ComputeResource.config_path name ++ "`")]
              else []) |})).
  { intros fuel Hfuel. replace fuel with (3 + (fuel - 3)) by lia.
    rewrite (init_fails _ _ _ _ _ _ _ _ Hparsed).
    destruct (is_file_not_found e); unfold record; simpl;
      now rewrite <- ?app_assoc. }
  split; [exact H3|].
  intros fuel d w' Hrun.
  pose proof (run_more _ _ _ _ _ _ Hrun ltac:(discriminate) 3) as Hmore.
  rewrite H3 in Hmore by lia. discriminate.
Qed.

Lemma init_missing_config_witness :
  run (sample_env []) 3
    (ComputeResource.__init__ sample_safe_load "worker-9" "my-project" "us-east1-b")
    start =
  (Raised (FileNotFoundError "configs/worker-9/config.yml"),
   {| polls := 0;
      trace := [AOpen "configs/worker-9/config.yml";
                ALogError "Could not find config at path `configs/worker-9/config.yml`"] |}).
Proof.
  apply (proj1 (init_missing_config sample_safe_load (sample_env [])
                  "worker-9" "my-project" "us-east1-b" start
                  (FileNotFoundError "configs/worker-9/config.yml") eq_refl) 3).
  lia.
Defined.

(** C6: when the file exists, parses, and has the three keys, the loader
    returns a descriptor whose three configuration attributes are the values
    the document has under [instance_family], [instance_project] and
    [machine_type]; name, project and zone are the caller's. *)
Theorem init_loads_config yaml_safe_load c name project zone w
    text info family image_project mtype fuel :
  files c (ComputeResource.config_path name) = inr text ->
  yaml_safe_load text = inr info ->
  getitem info "instance_family" = inr family ->
  getitem info "instance_project" = inr image_project ->
  getitem info "machine_type" = inr mtype ->
  2 <= fuel ->
  run c fuel (ComputeResource.__init__ yaml_safe_load name project zone) w =
    (Returned {| ComputeResource.instance_family := family;
                 ComputeResource.instance_project := image_project;
                 ComputeResource.machine_type := mtype;
                 ComputeResource.instance_name := name;
                 ComputeResource.project := project;
                 ComputeResource.zone := zone |},
     record (AOpen (ComputeResource.config_path name)) w).
Proof.
  intros Hfile Hyaml Hf Hp Hm Hfuel.
  replace fuel with (2 + (fuel - 2)) by lia.
  rewrite (init_file _ _ _ _ _ _ _ _ _ Hfile Hyaml), Hf, Hp, Hm. reflexivity.
Qed.

Lemma init_loads_config_witness :
  run (sample_env []) 2
    (ComputeResource.__init__ sample_safe_load "worker-1" "my-project" "us-east1-b")
    start =
  (Returned worker_1, record (AOpen "configs/worker-1/config.yml") start).
Proof.
  apply (init_loads_config sample_safe_load (sample_env [])
           "worker-1" "my-project" "us-east1-b" start worker_yaml
           (VDict [("instance_family", VStr "debian-12");
                   ("instance_project", VStr "debian-cloud");
                   ("machine_type", VStr "e2-medium")])
           (VStr "debian-12") (VStr "debian-cloud") (VStr "e2-medium") 2);
    reflexivity || lia.
Defined.

(** ** The lifecycle requests *)

Section Lifecycle.

Variable py_str : value -> string.
Variable c : environment.
Variable self : ComputeResource.t.

Let image_lookup : exn + value :=
  images_getFromFamily c (ComputeResource.instance_project self)
                         (ComputeResource.instance_family self).
Let looked_up (w : world) : world :=
  record (AGetFromFamily (ComputeResource.instance_project self)
                         (ComputeResource.instance_family self)) w.

(** [create] comes to an end within three steps: the image lookup, the insert
    request, the return. *)
Lemma create_runs w fuel :
  run c (3 + fuel) (ComputeResource.create py_str self) w =
  match image_lookup with
  | inl e => (Raised e, looked_up w)
  | inr image_response =>
      match getitem image_response "selfLink" with
      | inl e => (Raised e, looked_up w)
      | inr source_disk_image =>
          let body := ComputeResource.config py_str self source_disk_image in
          (outcome_of (instances_insert c (ComputeResource.project self)
                         (ComputeResource.zone self) body),
           record (AInsert (ComputeResource.project self)
                           (ComputeResource.zone self) body) (looked_up w))
      end
  end.
Proof.
  subst image_lookup looked_up. cbv beta. unfold ComputeResource.create. simpl "+".
  rewrite run_bind_trigger. answer.
  destruct (images_getFromFamily c _ _) as [e|image_response]; [reflexivity|].
  rewrite run_bind_lift.
  destruct (getitem image_response "selfLink") as [e|link]; [reflexivity|].
  rewrite run_trigger. answer.
  destruct (instances_insert c _ _ _); reflexivity.
Qed.

Lemma create_lookup_fails w fuel e :
  image_lookup = inl e ->
  run c (S fuel) (ComputeResource.create py_str self) w = (Raised e, looked_up w).
Proof.
  subst image_lookup looked_up. cbv beta. intros H.
  unfold ComputeResource.create.
  rewrite run_bind_trigger. answer. now rewrite H.
Qed.

Lemma delete_runs w fuel :
  run c (2 + fuel) (ComputeResource.delete self) w =
  (outcome_of (instances_delete c (ComputeResource.project self)
                 (ComputeResource.zone self) (ComputeResource.instance_name self)),
   record (ADelete (ComputeResource.project self) (ComputeResource.zone self)
                   (ComputeResource.instance_name self)) w).
Proof.
  unfold ComputeResource.delete. simpl "+".
  rewrite run_trigger. answer.
  destruct (instances_delete c _ _ _); reflexivity.
Qed.

End Lifecycle.



(** C7: when the image lookup raises, [create] raises the same exception
    right there; the lookup is the only request it has made, and it makes no
    insert request however long it is left to run. *)
Theorem create_image_lookup_fails py_str c self w e :
  images_getFromFamily c (ComputeResource.instance_project self)
                         (ComputeResource.instance_family self) = inl e ->
  (forall fuel, 1 <= fuel ->
     run c fuel (ComputeResource.create py_str self) w =
       (Raised e,
        {| polls := polls w;
           trace := trace w ++
             [AGetFromFamily (ComputeResource.instance_project self)
                             (ComputeResource.instance_family self)] |})) /\
  (forall fuel project zone body,
     ~ In (AInsert project zone body)
          (skipn (length (trace w))
             (trace (snd (run c fuel (ComputeResource.create py_str self) w))))).
Proof.
  intros Himage.
  assert (H1 : forall fuel, 1 <= fuel ->
     run c fuel (ComputeResource.create py_str self) w =
       (Raised e,
        {| polls := polls w;
           trace := trace w ++
             [AGetFromFamily (ComputeResource.instance_project self)
                             (ComputeResource.instance_family self)] |})).
  { intros fuel Hfuel. destruct fuel as [|fuel]; [lia|].
    now rewrite (create_lookup_fails _ _ _ _ _ _ Himage). }
  split; [exact H1|].
  intros fuel project zone body.
  destruct fuel as [|fuel].
  - simpl. rewrite skipn_all. intros [].
  - rewrite H1 by lia. simpl.
    rewrite skipn_app, skipn_all, Nat.sub_diag. simpl.
    intros [H|[]]. discriminate H.
Qed.

Lemma create_image_lookup_fails_witness :
  run (sample_env []) 1
    (ComputeResource.create builtin_str
       {| ComputeResource.instance_family := VStr "debian-99";
          ComputeResource.instance_project := VStr "debian-cloud";
          ComputeResource.machine_type := VStr "e2-medium";
          ComputeResource.instance_name := "worker-1";
          ComputeResource.project := "my-project";
          ComputeResource.zone := "us-east1-b" |}) start
  = (Raised not_found,
     {| polls := 0;
        trace := [AGetFromFamily (VStr "debian-cloud") (VStr "debian-99")] |}).
Proof.
  apply (proj1 (create_image_lookup_fails builtin_str (sample_env [])
                  {| ComputeResource.instance_family := VStr "debian-99";
                     ComputeResource.instance_project := VStr "debian-cloud";
                     ComputeResource.machine_type := VStr "e2-medium";
                     ComputeResource.instance_name := "worker-1";
                     ComputeResource.project := "my-project";
                     ComputeResource.zone := "us-east1-b" |}
                  start not_found eq_refl) 1).
  lia.
Defined.

(** C9: [delete] sends exactly one request, the deletion of the descriptor's
    own instance name in the descriptor's project and zone, and ends with
    what the provider answers to it. *)
Theorem delete_request c self w fuel :
  2 <= fuel ->
  run c fuel (ComputeResource.delete self) w =
    (outcome_of (instances_delete c (ComputeResource.project self)
                   (ComputeResource.zone self)
                   (ComputeResource.instance_name self)),
     {| polls := polls w;
        trace := trace w ++
          [ADelete (ComputeResource.project self) (ComputeResource.zone self)
                   (ComputeResource.instance_name self)] |}).
Proof.
  intros Hfuel. replace fuel with (2 + (fuel - 2)) by lia.
  now rewrite delete_runs.
Qed.

Lemma delete_request_witness :
  run (sample_env []) 2 (ComputeResource.delete worker_1) start =
    (Returned pending,
     {| polls := 0; trace := [ADelete "my-project" "us-east1-b" "worker-1"] |}).
Proof.
  apply (delete_request (sample_env []) worker_1 start 2). lia.
Defined.

(** ** What a program adds to the trace *)

Lemma grows_refl P w : grows P w w.
Proof. exists []. split; [now rewrite app_nil_r | constructor]. Qed.

Lemma grows_trans P w1 w2 w3 : grows P w1 w2 -> grows P w2 w3 -> grows P w1 w3.
Proof.
  intros (l1 & H1 & F1) (l2 & H2 & F2). exists (l1 ++ l2)%list. split.
  - now rewrite H2, H1, app_assoc.
  - apply Forall_app. now split.
Qed.

Lemma handle_trace c {X} (e : pyE X) w :
  trace (snd (handle c e w)) = (trace w ++ action_of e)%list.
Proof.
  destruct e as [f|[k|[g|x]]].
  - destruct f; reflexivity.
  - destruct k; reflexivity.
  - destruct g; reflexivity.
  - destruct x. simpl. now rewrite app_nil_r.
Qed.

Lemma handle_grows c {X} (e : pyE X) w P :
  Forall P (action_of e) -> grows P w (snd (handle c e w)).
Proof. intros H. exists (action_of e). split; [apply handle_trace | exact H]. Qed.

Lemma emits_observe {R} c (t : itree pyE R) P :
  match observe t with
  | RetF _ => True
  | TauF t' => emits c t' P
  | VisF e k => Forall P (action_of e) /\ forall x, emits c (k x) P
  end ->
  emits c t P.
Proof.
  intros H fuel w out w' Hrun. destruct fuel as [|fuel].
  - inversion Hrun; subst. apply grows_refl.
  - simpl in Hrun. destruct (observe t) as [r|t'|X e k].
    + inversion Hrun; subst. apply grows_refl.
    + exact (H _ _ _ _ Hrun).
    + destruct H as [He Hk].
      pose proof (handle_grows c e w P He) as Hg.
      destruct (handle c e w) as [[ex|x] w1]; simpl in Hg.
      * inversion Hrun; subst. exact Hg.
      * exact (grows_trans _ _ _ _ Hg (Hk _ _ _ _ _ Hrun)).
Qed.

Lemma emits_ret {R} c (r : R) P : emits c (Ret r) P.
Proof. apply emits_observe. exact I. Qed.

Lemma emits_trigger {F X} `{F -< pyE} c (e : F X) P :
  Forall P (action_of (subevent _ e)) -> emits c (trigger e) P.
Proof.
  intros He. apply emits_observe. simpl. split; [exact He|].
  intros x. apply emits_ret.
Qed.

Lemma emits_throw {R} c (e : exn) P : emits c (throw e : itree pyE R) P.
Proof.
  apply emits_observe. simpl. split; [constructor|]. intros [].
Qed.

Lemma emits_lift {R} c (r : exn + R) P : emits c (lift r) P.
Proof. destruct r; [apply emits_throw | apply emits_ret]. Qed.

(** A run of [t ;; k] is a run of [t], followed, when [t] returns, by a run
    of [k] on what is left of the fuel. *)
Lemma run_bind_cases {A R} c fuel : forall (t : itree pyE A)
    (k : A -> itree pyE R) w,
  match run c fuel t w with
  | (Returned a, w1) =>
      exists fuel', fuel' <= fuel /\
        run c fuel (ITree.bind t k) w = run c fuel' (k a) w1
  | (Raised e, w1) => run c fuel (ITree.bind t k) w = (Raised e, w1)
  | (Running, w1) => run c fuel (ITree.bind t k) w = (Running, w1)
  end.
Proof.
  induction fuel as [|fuel IH]; intros t k w; [reflexivity|].
  cbn [run]. rewrite observe_bind_cases.
  destruct (observe t) as [a|t'|X e h].
  - exists (S fuel). split; [lia | reflexivity].
  - specialize (IH t' k w).
    destruct (run c fuel t' w) as [[a|e|] w1]; [|exact IH..].
    destruct IH as (fuel' & Hle & IH). exists fuel'. split; [lia | exact IH].
  - destruct (handle c e w) as [[ex|x] w1]; [reflexivity|].
    specialize (IH (h x) k w1).
    destruct (run c fuel (h x) w1) as [[a|e'|] w2]; [|exact IH..].
    destruct IH as (fuel' & Hle & IH). exists fuel'. split; [lia | exact IH].
Qed.

Lemma emits_bind {A R} c (t : itree pyE A) (k : A -> itree pyE R) P :
  emits c t P ->
  (forall a, returns c t a -> emits c (k a) P) ->
  emits c (ITree.bind t k) P.
Proof.
  intros Ht Hk fuel w out w' Hrun.
  pose proof (run_bind_cases c fuel t k w) as Hcases.
  destruct (run c fuel t w) as [[a|e|] w1] eqn:Hrun_t.
  - destruct Hcases as (fuel' & _ & Heq). rewrite Heq in Hrun.
    apply (grows_trans _ _ w1); [exact (Ht _ _ _ _ Hrun_t)|].
    apply (Hk a) in Hrun; [exact Hrun|]. now exists fuel, w, w1.
  - rewrite Hcases in Hrun. inversion Hrun; subst. exact (Ht _ _ _ _ Hrun_t).
  - rewrite Hcases in Hrun. inversion Hrun; subst. exact (Ht _ _ _ _ Hrun_t).
Qed.

Lemma emits_iter {I R} c (body : I -> itree pyE (I + R)) P :
  (forall i, emits c (body i) P) ->
  forall i, emits c (ITree.iter body i) P.
Proof.
  intros Hbody i fuel. revert i.
  induction fuel as [fuel IH] using (well_founded_induction lt_wf).
  intros i w out w' Hrun. rewrite run_iter in Hrun.
  pose proof (run_bind_cases c fuel (body i)
                (fun lr => match lr with
                           | inl l => Tau (ITree.iter body l)
                           | inr r => Ret r
                           end) w) as Hcases.
  destruct (run c fuel (body i) w) as [[[l|r]|e|] w1] eqn:Hrun_b.
  - destruct Hcases as (fuel' & Hle & Heq). rewrite Heq in Hrun.
    apply (grows_trans _ _ w1); [exact (Hbody _ _ _ _ _ Hrun_b)|].
    destruct fuel' as [|fuel'].
    + inversion Hrun; subst. apply grows_refl.
    + simpl in Hrun. exact (IH fuel' ltac:(lia) _ _ _ _ Hrun).
  - destruct Hcases as (fuel' & Hle & Heq). rewrite Heq in Hrun.
    apply (grows_trans _ _ w1); [exact (Hbody _ _ _ _ _ Hrun_b)|].
    exact (emits_ret c r P _ _ _ _ Hrun).
  - rewrite Hcases in Hrun. inversion Hrun; subst. exact (Hbody _ _ _ _ _ Hrun_b).
  - rewrite Hcases in Hrun. inversion Hrun; subst. exact (Hbody _ _ _ _ _ Hrun_b).
Qed.

Lemma emits_weaken {R} c (t : itree pyE R) (P Q : action -> Prop) :
  (forall a, P a -> Q a) -> emits c t P -> emits c t Q.
Proof.
  intros HPQ Ht fuel w out w' Hrun.
  destruct (Ht _ _ _ _ Hrun) as (l & Hl & Fl).
  exists l. split; [exact Hl|]. eapply Forall_impl; eauto.
Qed.

(** ** The commands *)

Lemma emits_wait c p z o : emits c (wait_for_operation p z o) quiet.
Proof.
  unfold wait_for_operation. apply emits_iter. intros _.
  apply emits_bind; [apply emits_trigger; repeat constructor|]. intros result _.
  apply emits_bind; [apply emits_lift|]. intros status _.
  destruct (eq_str status "DONE").
  - apply emits_bind; [apply emits_trigger; repeat constructor|]. intros _ _.
    destruct (contains "error" result).
    + apply emits_bind; [apply emits_lift|]. intros err _. apply emits_throw.
    + apply emits_ret.
  - apply emits_bind; [apply emits_trigger; repeat constructor|]. intros _ _.
    apply emits_ret.
Qed.

Lemma emits_init yaml_safe_load c name project zone :
  emits c (ComputeResource.__init__ yaml_safe_load name project zone) quiet.
Proof.
  unfold ComputeResource.__init__.
  apply emits_bind; [apply emits_trigger; repeat constructor|]. intros stream _.
  destruct (match stream with
            | inl e => inl e
            | inr text => yaml_safe_load text
            end) as [e|info].
  - apply emits_bind; [|intros _ _; apply emits_throw].
    destruct (is_file_not_found e);
      [apply emits_trigger; repeat constructor | apply emits_ret].
  - repeat (apply emits_bind; [apply emits_lift|]; intros ? _). apply emits_ret.
Qed.

Lemma init_returns yaml_safe_load c name project zone d :
  returns c (ComputeResource.__init__ yaml_safe_load name project zone) d ->
  loaded yaml_safe_load c name project zone d.
Proof.
  intros (fuel & w & w' & Hrun).
  pose proof (run_more _ _ _ _ _ _ Hrun ltac:(discriminate) 3) as Hmore.
  destruct (parsed yaml_safe_load c name) as [e|info] eqn:Hparsed.
  - replace (fuel + 3) with (3 + fuel) in Hmore by lia.
    rewrite (init_fails _ _ _ _ _ _ _ _ Hparsed) in Hmore. discriminate.
  - replace (fuel + 3) with (2 + (fuel + 1)) in Hmore by lia.
    rewrite (init_parsed _ _ _ _ _ _ _ _ Hparsed) in Hmore.
    unfold parsed in Hparsed.
    destruct (files c (ComputeResource.config_path name)) as [e|text] eqn:Hfile;
      [discriminate|].
    exists text, info.
    destruct (getitem info "instance_family") as [e|f] eqn:Hf; [discriminate|].
    destruct (getitem info "instance_project") as [e|p] eqn:Hp; [discriminate|].
    destruct (getitem info "machine_type") as [e|m] eqn:Hm; [discriminate|].
    inversion Hmore; subst. simpl. repeat split; assumption || reflexivity.
Qed.

Lemma emits_create_on py_str c d :
  emits c (ComputeResource.create py_str d) (requested_on py_str d).
Proof.
  unfold ComputeResource.create.
  apply emits_bind.
  { apply emits_trigger. repeat constructor. }
  intros image_response _.
  apply emits_bind; [apply emits_lift|]. intros image _.
  apply emits_trigger. repeat constructor. simpl. eauto.
Qed.

Lemma emits_delete_on py_str c d :
  emits c (ComputeResource.delete d) (requested_on py_str d).
Proof.
  unfold ComputeResource.delete. apply emits_trigger. repeat constructor.
Qed.

Section CommandTraces.

Variable yaml_safe_load : string -> exn + value.
Variable py_str : value -> string.
Variable c : environment.
Variables name project zone : string.

(** A lifecycle request is made on the descriptor the loader built. *)
Let on_loaded (a : action) : Prop :=
  lifecycle_request a = true ->
  exists d, loaded yaml_safe_load c name project zone d /\ requested_on py_str d a.

Lemma quiet_on_loaded a : quiet a -> on_loaded a.
Proof. unfold quiet, on_loaded. congruence. Qed.

Lemma emits_create_command :
  emits c (create yaml_safe_load py_str name project zone) on_loaded.
Proof.
  unfold create.
  apply emits_bind.
  { eapply emits_weaken; [exact quiet_on_loaded | apply emits_init]. }
  intros d Hd. apply init_returns in Hd.
  apply emits_bind.
  { apply emits_trigger. repeat constructor. discriminate. }
  intros _ _. apply emits_bind.
  { apply emits_trigger. repeat constructor. discriminate. }
  intros _ _. apply emits_bind.
  { eapply emits_weaken; [|apply (emits_create_on py_str)].
    intros a Ha _. eauto. }
  intros create_operation _.
  apply emits_bind; [apply emits_lift|]. intros op _.
  apply emits_bind.
  { eapply emits_weaken; [exact quiet_on_loaded | apply emits_wait]. }
  intros _ _. apply emits_trigger. repeat constructor. discriminate.
Qed.

Lemma emits_delete_command :
  emits c (delete yaml_safe_load name project zone) on_loaded.
Proof.
  unfold delete.
  apply emits_bind.
  { eapply emits_weaken; [exact quiet_on_loaded | apply emits_init]. }
  intros d Hd. apply init_returns in Hd.
  apply emits_bind.
  { apply emits_trigger. repeat constructor. discriminate. }
  intros _ _. apply emits_bind.
  { apply emits_trigger. repeat constructor. discriminate. }
  intros _ _. apply emits_bind.
  { eapply emits_weaken; [|apply (emits_delete_on py_str)].
    intros a Ha _. eauto. }
  intros delete_operation _.
  apply emits_bind; [apply emits_lift|]. intros op _.
  apply emits_bind.
  { eapply emits_weaken; [exact quiet_on_loaded | apply emits_wait]. }
  intros _ _. apply emits_trigger. repeat constructor. discriminate.
Qed.

End CommandTraces.

(** C8, as stated, fails: a configuration file whose [machine_type] is null
    loads without error into a descriptor that has a null attribute, and the
    [create] command goes on to request, and obtain, an instance whose machine
    type is [zones/us-east1-b/machineTypes/None]. *)
Lemma null_attribute_reaches_create :
  run (sample_env [inr done]) 2
    (ComputeResource.__init__ sample_safe_load "worker-2" "my-project" "us-east1-b")
    start
  = (Returned worker_2, record (AOpen "configs/worker-2/config.yml") start) /\
  fully_populated worker_2 = false /\
  run (sample_env [inr done]) 11
    (create sample_safe_load builtin_str "worker-2" "my-project" "us-east1-b")
    start
  = (Returned tt,
     {| polls := 1;
        trace :=
          [AOpen "configs/worker-2/config.yml";
           ALogInfo "Issuing create command for instance `worker-2` in zone us-east1-b and project my-project...";
           ABuild;
           AGetFromFamily (VStr "debian-cloud") (VStr "debian-12");
           AInsert "my-project" "us-east1-b"
             (ComputeResource.config builtin_str worker_2
                (VStr "projects/debian-cloud/global/images/debian-12-bookworm"));
           AGet "my-project" "us-east1-b" (VStr "operation-1");
           APrint "done.";
           ALogInfo "Instance created successfully!"] |}) /\
  getitem (ComputeResource.config builtin_str worker_2
             (VStr "projects/debian-cloud/global/images/debian-12-bookworm"))
          "machineType"
  = inr (VStr "zones/us-east1-b/machineTypes/None").
Proof. repeat split; reflexivity. Qed.

(** C8, amended: a lifecycle request is only ever made on the descriptor the
    loader built, whose six attributes are all set: the three configuration
    attributes are the values the parsed file has under its three keys,
    whatever they are, and name, project and zone are the command's
    arguments.  When the loader raises (no file, a file that does not parse,
    a missing key), the command raises the same exception at the same point,
    before any lifecycle request. *)
Theorem lifecycle_on_loaded_descriptor yaml_safe_load py_str c name project zone :
  (forall fuel out w' a,
     run c fuel (create yaml_safe_load py_str name project zone) start = (out, w') ->
     In a (trace w') -> lifecycle_request a = true ->
     exists d, loaded yaml_safe_load c name project zone d /\
               requested_on py_str d a) /\
  (forall fuel out w' a,
     run c fuel (delete yaml_safe_load name project zone) start = (out, w') ->
     In a (trace w') -> lifecycle_request a = true ->
     exists d, loaded yaml_safe_load c name project zone d /\
               requested_on py_str d a) /\
  (forall fuel e w',
     run c fuel (ComputeResource.__init__ yaml_safe_load name project zone) start
       = (Raised e, w') ->
     run c fuel (create yaml_safe_load py_str name project zone) start
       = (Raised e, w') /\
     run c fuel (delete yaml_safe_load name project zone) start
       = (Raised e, w') /\
     forall a, In a (trace w') -> lifecycle_request a = false).
Proof.
  split; [|split].
  - intros fuel out w' a Hrun Hin.
    destruct (emits_create_command yaml_safe_load py_str c name project zone
                _ _ _ _ Hrun) as (l & Hl & Fl).
    simpl in Hl. rewrite Hl in Hin.
    exact (proj1 (Forall_forall _ _) Fl a Hin).
  - intros fuel out w' a Hrun Hin.
    destruct (emits_delete_command yaml_safe_load py_str c name project zone
                _ _ _ _ Hrun) as (l & Hl & Fl).
    simpl in Hl. rewrite Hl in Hin.
    exact (proj1 (Forall_forall _ _) Fl a Hin).
  - intros fuel e w' Hrun. split; [|split].
    + unfold create.
      pose proof (run_bind_cases c fuel
                    (ComputeResource.__init__ yaml_safe_load name project zone)
                    (fun compute_resource =>
                       trigger (LogInfo ("Issuing create command for instance `"
                          ++ name ++ "` in zone " ++ zone ++ " and project "
                          ++ project ++ "...")) ;;
                       trigger Build ;;
                       create_operation <-
                         ComputeResource.create py_str compute_resource ;;
                       name <- lift (getitem create_operation "name") ;;
                       wait_for_operation project zone name ;;
                       trigger (LogInfo "Instance created successfully!"))
                    start) as H.
      rewrite Hrun in H. exact H.
    + unfold delete.
      pose proof (run_bind_cases c fuel
                    (ComputeResource.__init__ yaml_safe_load name project zone)
                    (fun compute_resource =>
                       trigger (LogInfo ("Issuing delete command for instance `"
                          ++ name ++ "` in zone " ++ zone ++ " and project "
                          ++ project ++ "...")) ;;
                       trigger Build ;;
                       delete_operation <-
                         ComputeResource.delete compute_resource ;;
                       name <- lift (getitem delete_operation "name") ;;
                       wait_for_operation project zone name ;;
                       trigger (LogInfo "Instance deleted successfully!"))
                    start) as H.
      rewrite Hrun in H. exact H.
    + intros a Hin.
      destruct (emits_init yaml_safe_load c name project zone _ _ _ _ Hrun)
        as (l & Hl & Fl).
      simpl in Hl. rewrite Hl in Hin.
      exact (proj1 (Forall_forall _ _) Fl a Hin).
Qed.

Lemma lifecycle_on_loaded_descriptor_witness :
  (exists d,
     loaded sample_safe_load (sample_env [inr done])
       "worker-1" "my-project" "us-east1-b" d /\
     requested_on builtin_str d
       (AInsert "my-project" "us-east1-b"
          (ComputeResource.config builtin_str worker_1
             (VStr "projects/debian-cloud/global/images/debian-12-bookworm")))) /\
  run (sample_env []) 3
    (create sample_safe_load builtin_str "worker-9" "my-project" "us-east1-b") start
  = (Raised (FileNotFoundError "configs/worker-9/config.yml"),
     {| polls := 0;
        trace := [AOpen "configs/worker-9/config.yml";
                  ALogError "Could not find config at path `configs/worker-9/config.yml`"] |}).
Proof.
  split.
  - apply (proj1 (lifecycle_on_loaded_descriptor sample_safe_load builtin_str
                    (sample_env [inr done]) "worker-1" "my-project" "us-east1-b")
                 11 (Returned tt)
                 {| polls := 1;
                    trace :=
                      [AOpen "configs/worker-1/config.yml";
                       ALogInfo "Issuing create command for instance `worker-1` in zone us-east1-b and project my-project...";
                       ABuild;
                       AGetFromFamily (VStr "debian-cloud") (VStr "debian-12");
                       AInsert "my-project" "us-east1-b"
                         (ComputeResource.config builtin_str worker_1
                            (VStr "projects/debian-cloud/global/images/debian-12-bookworm"));
                       AGet "my-project" "us-east1-b" (VStr "operation-1");
                       APrint "done.";
                       ALogInfo "Instance created successfully!"] |}).
    + reflexivity.
    + simpl. auto 10.
    + reflexivity.
  - apply (proj2 (proj2 (lifecycle_on_loaded_descriptor sample_safe_load
                           builtin_str (sample_env []) "worker-9" "my-project"
                           "us-east1-b")) 3).
    reflexivity.
Defined.

(** * Further properties *)

(** ** Composing runs *)

(** When [t] returns and [k] then comes to an end, so does [t ;; k], on the
    sum of the fuel. *)
Lemma run_bind_returns {A R} c f1 : forall (t : itree pyE A)
    (k : A -> itree pyE R) w a w1 f2 out w2,
  run c f1 t w = (Returned a, w1) ->
  run c f2 (k a) w1 = (out, w2) -> out <> Running ->
  run c (f1 + f2) (ITree.bind t k) w = (out, w2).
Proof.
  induction f1 as [|f1 IH]; intros t k w a w1 f2 out w2 Ht Hk Hout;
    [discriminate|].
  cbn [run Nat.add] in *. rewrite observe_bind_cases.
  destruct (observe t) as [r|t'|X e h].
  - inversion Ht; subst.
    change (run c (S (f1 + f2)) (k a) w1 = (out, w2)).
    replace (S (f1 + f2)) with (f2 + S f1) by lia. now apply run_more.
  - now apply (IH _ _ _ _ _ _ _ _ Ht).
  - destruct (handle c e w) as [[ex|x] w0]; [discriminate|].
    now apply (IH _ _ _ _ _ _ _ _ Ht).
Qed.

Lemma run_bind_returned {A R} c fuel (t : itree pyE A) (k : A -> itree pyE R)
    w r w' :
  run c fuel (ITree.bind t k) w = (Returned r, w') ->
  exists a w1 fuel',
    run c fuel t w = (Returned a, w1) /\
    run c fuel' (k a) w1 = (Returned r, w').
Proof.
  intros Hrun. pose proof (run_bind_cases c fuel t k w) as H.
  destruct (run c fuel t w) as [[a|e|] w1].
  - destruct H as (fuel' & _ & Heq). exists a, w1, fuel'.
    split; [reflexivity | congruence].
  - congruence.
  - congruence.
Qed.

Lemma run_trigger_returned {F X} `{F -< pyE} c fuel (e : F X) w x w' :
  run c fuel (trigger e) w = (Returned x, w') ->
  handle c (subevent _ e) w = (inr x, w').
Proof.
  destruct fuel as [|fuel]; [discriminate|]. simpl.
  destruct (handle c (subevent X e) w) as [[ex|x0] w1]; [discriminate|].
  destruct fuel; simpl; [discriminate|]. congruence.
Qed.

Lemma run_lift_returned {A} c fuel (r : exn + A) w a w' :
  run c fuel (lift r) w = (Returned a, w') -> r = inr a /\ w' = w.
Proof.
  destruct fuel as [|fuel]; [discriminate|].
  destruct r as [e|a0]; simpl; [discriminate|].
  intros H. inversion H. auto.
Qed.

(** ** More on the wait loop *)

Lemma polled_after p z o n w a :
  polled a (after p z o n w) =
  {| polls := polls w + S n; trace := trace w ++ turns p z o n ++ [a] |}.
Proof.
  unfold polled, after. simpl. f_equal; [lia|]. now rewrite <- app_assoc.
Qed.

Lemma printed_after p z o n w a b :
  record b (polled a (after p z o n w)) =
  {| polls := polls w + S n; trace := trace w ++ turns p z o n ++ [a; b] |}.
Proof.
  rewrite polled_after. unfold record. simpl. f_equal.
  now rewrite <- !app_assoc.
Qed.

(** The loop on one and on two steps of fuel. *)
Lemma wait_run_1 c p z o w :
  run c 1 (wait_for_operation p z o) w =
  (match zoneOperations_get c (polls w) p z o with
   | inl e => Raised e
   | inr _ => Running
   end, polled (AGet p z o) w).
Proof.
  unfold wait_for_operation.
  rewrite run_iter, run_bind_bind, run_bind_trigger. answer.
  destruct (zoneOperations_get c (polls w) p z o); reflexivity.
Qed.

Lemma wait_no_status c p z o w fuel result e :
  zoneOperations_get c (polls w) p z o = inr result ->
  getitem result "status" = inl e ->
  run c (S (S fuel)) (wait_for_operation p z o) w =
  (Raised e, polled (AGet p z o) w).
Proof.
  intros Hreply Hstatus. unfold wait_for_operation.
  rewrite run_iter, run_bind_bind, run_bind_trigger. answer. rewrite Hreply.
  now rewrite run_bind_bind, run_bind_lift, Hstatus.
Qed.

Lemma wait_run_2_running c p z o w result status :
  zoneOperations_get c (polls w) p z o = inr result ->
  getitem result "status" = inr status ->
  run c 2 (wait_for_operation p z o) w =
  (Running,
   record (if eq_str status "DONE" then APrint "done." else ASleep 1)
          (polled (AGet p z o) w)).
Proof.
  intros Hreply Hstatus. unfold wait_for_operation.
  rewrite run_iter, run_bind_bind, run_bind_trigger. answer. rewrite Hreply.
  rewrite run_bind_bind, run_bind_lift, Hstatus.
  destruct (eq_str status "DONE").
  - rewrite !run_bind_bind, run_bind_trigger. answer. reflexivity.
  - rewrite run_bind_bind, run_bind_trigger. answer. reflexivity.
Qed.

(** X1: after any number [n] of non-terminal replies, a response with status
    DONE and no "error" entry makes the loop return that response; it has
    then made [n + 1] status queries, slept one second after each of the
    first [n] and printed "done." once, at the end. *)
Theorem wait_returns_after c p z o w n result fuel :
  prefix c p z o w n ->
  zoneOperations_get c (polls w + n) p z o = inr result ->
  getitem result "status" = inr (VStr "DONE") ->
  contains "error" result = false ->
  3 * n + 3 <= fuel ->
  run c fuel (wait_for_operation p z o) w =
    (Returned result,
     {| polls := polls w + S n;
        trace := trace w ++ turns p z o n ++ [AGet p z o; APrint "done."] |}).
Proof.
  intros Hp Hreply Hstatus Herr Hfuel.
  replace fuel with ((3 * n + 3) + (fuel - (3 * n + 3))) by lia.
  apply run_more; [|discriminate].
  rewrite wait_prefix by assumption.
  rewrite wait_step. cbv zeta. simpl polls.
  rewrite Hreply, Hstatus. simpl. rewrite Herr.
  now rewrite printed_after.
Qed.

Lemma wait_returns_after_witness :
  run (sample_env [inr pending; inr running; inr running; inr done]) 12
      (wait_for_operation "my-project" "us-east1-b" (VStr "operation-1")) start
  = (Returned done,
     {| polls := 4;
        trace := turns "my-project" "us-east1-b" (VStr "operation-1") 3 ++
                 [AGet "my-project" "us-east1-b" (VStr "operation-1");
                  APrint "done."] |}).
Proof.
  apply (wait_returns_after
           (sample_env [inr pending; inr running; inr running; inr done])
           "my-project" "us-east1-b" (VStr "operation-1") start 3 done 12);
    try reflexivity; try lia.
  intros k Hk. destruct k as [|[|[|k]]]; [reflexivity .. | lia].
Defined.

(** X2: after any number [n] of non-terminal replies, a response with status
    DONE that has an "error" entry makes the loop raise [Exception] of that
    entry; "done." has been printed before the exception is raised, and no
    further query is made. *)
Theorem wait_raises_after c p z o w n result payload fuel :
  prefix c p z o w n ->
  zoneOperations_get c (polls w + n) p z o = inr result ->
  getitem result "status" = inr (VStr "DONE") ->
  getitem result "error" = inr payload ->
  3 * n + 3 <= fuel ->
  run c fuel (wait_for_operation p z o) w =
    (Raised (Exception payload),
     {| polls := polls w + S n;
        trace := trace w ++ turns p z o n ++ [AGet p z o; APrint "done."] |}).
Proof.
  intros Hp Hreply Hstatus Herr Hfuel.
  replace fuel with ((3 * n + 3) + (fuel - (3 * n + 3))) by lia.
  apply run_more; [|discriminate].
  rewrite wait_prefix by assumption.
  rewrite wait_step. cbv zeta. simpl polls.
  rewrite Hreply, Hstatus. simpl.
  rewrite (getitem_contains _ _ _ Herr), Herr.
  now rewrite printed_after.
Qed.

Lemma wait_raises_after_witness :
  run (sample_env [inr pending; inr running; inr done_with_error]) 9
      (wait_for_operation "my-project" "us-east1-b" (VStr "operation-1")) start
  = (Raised (Exception quota_exceeded),
     {| polls := 3;
        trace := turns "my-project" "us-east1-b" (VStr "operation-1") 2 ++
                 [AGet "my-project" "us-east1-b" (VStr "operation-1");
                  APrint "done."] |}).
Proof.
  apply (wait_raises_after
           (sample_env [inr pending; inr running; inr done_with_error])
           "my-project" "us-east1-b" (VStr "operation-1") start 2
           done_with_error quota_exceeded 9);
    try reflexivity; try lia.
  intros k Hk. destruct k as [|[|k]]; [reflexivity .. | lia].
Defined.

(** X3: when a status query itself raises, after any number [n] of
    non-terminal replies, the loop raises that exception at once: the failed
    query is its last action, it is not retried and nothing is printed. *)
Theorem wait_query_fails_after c p z o w n e fuel :
  prefix c p z o w n ->
  zoneOperations_get c (polls w + n) p z o = inl e ->
  3 * n + 1 <= fuel ->
  run c fuel (wait_for_operation p z o) w =
    (Raised e,
     {| polls := polls w + S n;
        trace := trace w ++ turns p z o n ++ [AGet p z o] |}).
Proof.
  intros Hp Hreply Hfuel.
  replace fuel with ((3 * n + 1) + (fuel - (3 * n + 1))) by lia.
  apply run_more; [|discriminate].
  rewrite wait_prefix by assumption.
  rewrite wait_run_1. simpl polls. rewrite Hreply.
  now rewrite polled_after.
Qed.

Lemma wait_query_fails_after_witness :
  run (sample_env [inr running; inl not_found]) 4
      (wait_for_operation "my-project" "us-east1-b" (VStr "operation-1")) start
  = (Raised not_found,
     {| polls := 2;
        trace := [AGet "my-project" "us-east1-b" (VStr "operation-1"); ASleep 1;
                  AGet "my-project" "us-east1-b" (VStr "operation-1")] |}).
Proof.
  apply (wait_query_fails_after (sample_env [inr running; inl not_found])
           "my-project" "us-east1-b" (VStr "operation-1") start 1 not_found 4);
    try reflexivity; try lia.
  intros k Hk. destruct k as [|k]; [reflexivity | lia].
Defined.

(** X4: a response from which ["status"] cannot be read ends the loop with
    the exception of that subscript: [KeyError "status"] for a mapping with
    no such key, [TypeError] for a response that is no mapping.  Nothing is
    printed and no further query is made. *)
Theorem wait_response_without_status c p z o w n result fuel :
  prefix c p z o w n ->
  zoneOperations_get c (polls w + n) p z o = inr result ->
  contains "status" result = false ->
  3 * n + 2 <= fuel ->
  run c fuel (wait_for_operation p z o) w =
    (Raised (match result with
             | VDict _ => KeyError "status"
             | _ => TypeError
             end),
     {| polls := polls w + S n;
        trace := trace w ++ turns p z o n ++ [AGet p z o] |}).
Proof.
  intros Hp Hreply Hstatus Hfuel.
  replace fuel with ((3 * n + 2) + (fuel - (3 * n + 2))) by lia.
  apply run_more; [|destruct result; discriminate].
  rewrite wait_prefix by assumption.
  rewrite (wait_no_status _ _ _ _ _ _ result
             (match result with VDict _ => KeyError "status" | _ => TypeError end));
    [now rewrite polled_after | exact Hreply |].
  destruct result; try reflexivity.
  simpl in *. destruct (lookup "status" entries); [discriminate | reflexivity].
Qed.

Lemma wait_response_without_status_witness :
  run (sample_env [inr running; inr quota_exceeded]) 5
      (wait_for_operation "my-project" "us-east1-b" (VStr "operation-1")) start
  = (Raised (KeyError "status"),
     {| polls := 2;
        trace := [AGet "my-project" "us-east1-b" (VStr "operation-1"); ASleep 1;
                  AGet "my-project" "us-east1-b" (VStr "operation-1")] |}).
Proof.
  apply (wait_response_without_status
           (sample_env [inr running; inr quota_exceeded])
           "my-project" "us-east1-b" (VStr "operation-1") start 1
           quota_exceeded 5);
    try reflexivity; try lia.
  intros k Hk. destruct k as [|k]; [reflexivity | lia].
Defined.

(** X5: the loop has no timeout.  As long as every reply is non-terminal it
    neither returns nor raises, however long it runs, and the number of
    status queries it has made grows beyond every bound. *)
Theorem wait_never_ends c p z o w :
  (forall k, non_terminal (zoneOperations_get c (polls w + k) p z o) = true) ->
  (forall fuel, fst (run c fuel (wait_for_operation p z o) w) = Running) /\
  (forall n, run c (3 * n) (wait_for_operation p z o) w =
             (Running, after p z o n w)).
Proof.
  intros Hall. split.
  - intros fuel.
    destruct (run c fuel (wait_for_operation p z o) w) as [out w'] eqn:Hrun.
    destruct out as [r|e|]; [| |reflexivity]; exfalso;
      destruct (wait_outcome _ _ _ _ _ _ _ _ Hrun ltac:(discriminate))
        as (m & _ & _ & Hnt & _);
      rewrite Hall in Hnt; discriminate.
  - intros n. rewrite <- (Nat.add_0_r (3 * n)).
    rewrite wait_prefix; [reflexivity|]. intros k _. apply Hall.
Qed.

Lemma wait_never_ends_witness :
  run (sample_env []) 30
    (wait_for_operation "my-project" "us-east1-b" (VStr "operation-1")) start
  = (Running, after "my-project" "us-east1-b" (VStr "operation-1") 10 start).
Proof.
  apply (proj2 (wait_never_ends (sample_env []) "my-project" "us-east1-b"
                  (VStr "operation-1") start
                  (fun k => match k with 0 => eq_refl | S _ => eq_refl end)) 10).
Defined.

(** X6: whatever the provider answers and however long the loop has run, what
    it has added to the trace is some number of turns, each the same status
    query (same project, zone and operation) followed by a sleep of exactly
    one second, and then at most one more such query, followed at most by
    "done.".  So the polling interval never changes, two queries are always
    one sleep apart, and "done." is printed at most once, last. *)
Theorem wait_trace_shape c p z o fuel : forall w out w',
  run c fuel (wait_for_operation p z o) w = (out, w') ->
  exists n rest,
    trace w' = (trace w ++ turns p z o n ++ rest)%list /\
    (rest = [] \/ rest = [AGet p z o] \/ rest = [AGet p z o; APrint "done."]) /\
    polls w' = polls w + n + queries rest.
Proof.
  induction fuel as [fuel IH] using (well_founded_induction lt_wf).
  intros w out w' Hrun.
  destruct fuel as [|[|[|fuel]]].
  - inversion Hrun; subst. exists 0, []. simpl. rewrite app_nil_r.
    repeat split; auto; lia.
  - rewrite wait_run_1 in Hrun. inversion Hrun; subst.
    exists 0, [AGet p z o]. simpl. repeat split; auto; lia.
  - destruct (zoneOperations_get c (polls w) p z o) as [e|result] eqn:Hreply.
    { pose proof (wait_run_1 c p z o w) as H1. rewrite Hreply in H1.
      pose proof (run_more _ _ _ _ _ _ H1 ltac:(discriminate) 1) as H2.
      change (1 + 1) with 2 in H2. rewrite H2 in Hrun. inversion Hrun; subst.
      exists 0, [AGet p z o]. simpl. repeat split; auto; lia. }
    destruct (getitem result "status") as [e|status] eqn:Hstatus.
    { rewrite (wait_no_status _ _ _ _ _ _ _ _ Hreply Hstatus) in Hrun.
      inversion Hrun; subst.
      exists 0, [AGet p z o]. simpl. repeat split; auto; lia. }
    rewrite (wait_run_2_running _ _ _ _ _ _ _ Hreply Hstatus) in Hrun.
    inversion Hrun; subst.
    destruct (eq_str status "DONE").
    + exists 0, [AGet p z o; APrint "done."]. simpl.
      rewrite <- app_assoc. repeat split; auto; lia.
    + exists 1, []. simpl. rewrite <- app_assoc. repeat split; auto; lia.
  - destruct (non_terminal (zoneOperations_get c (polls w) p z o)) eqn:Hnt.
    + change (S (S (S fuel))) with (3 + fuel) in Hrun.
      rewrite (wait_again _ _ _ _ _ _ Hnt) in Hrun.
      destruct (IH fuel ltac:(lia) _ _ _ Hrun) as (n & rest & Ht & Hrest & Hp).
      exists (S n), rest. simpl in *. rewrite Ht, <- app_assoc.
      repeat split; auto; lia.
    + change (S (S (S fuel))) with (3 + fuel) in Hrun.
      rewrite (wait_last _ _ _ _ _ _ Hnt) in Hrun.
      apply wait_settles in Hrun. unfold non_terminal in Hnt.
      destruct (zoneOperations_get c (polls w) p z o) as [e|result].
      { destruct Hrun as [_ ->]. exists 0, [AGet p z o]. simpl.
        repeat split; auto; lia. }
      destruct (getitem result "status") as [e|status].
      { destruct Hrun as [_ ->]. exists 0, [AGet p z o]. simpl.
        repeat split; auto; lia. }
      destruct (eq_str status "DONE"); [|discriminate].
      destruct Hrun as [-> _]. exists 0, [AGet p z o; APrint "done."]. simpl.
      rewrite <- app_assoc. repeat split; auto; lia.
Qed.

Lemma wait_trace_shape_witness :
  exists n rest,
    [AGet "my-project" "us-east1-b" (VStr "operation-1"); ASleep 1;
     AGet "my-project" "us-east1-b" (VStr "operation-1"); APrint "done."]
    = ([] ++ turns "my-project" "us-east1-b" (VStr "operation-1") n ++ rest)%list /\
    (rest = [] \/
     rest = [AGet "my-project" "us-east1-b" (VStr "operation-1")] \/
     rest = [AGet "my-project" "us-east1-b" (VStr "operation-1"); APrint "done."]) /\
    2 = 0 + n + queries rest.
Proof.
  apply (wait_trace_shape (sample_env [inr running; inr done])
           "my-project" "us-east1-b" (VStr "operation-1") 6 start
           (Returned done)
           {| polls := 2;
              trace := [AGet "my-project" "us-east1-b" (VStr "operation-1");
                        ASleep 1;
                        AGet "my-project" "us-east1-b" (VStr "operation-1");
                        APrint "done."] |}).
  reflexivity.
Defined.

(** ** More on the loader *)

Ltac answer_in H :=
  match type of H with
  | context [handle ?c ?e ?w] =>
      let r := eval cbn in (handle c e w) in
      change (handle c e w) with r in H; cbv beta iota in H
  end.

(** X7: a configuration file that [yaml.safe_load] rejects makes the loader
    raise the parser's exception unchanged, after opening the file and
    nothing else.  The handler of the [try] block covers the parser too, so
    the error line is logged exactly when that exception is a
    [FileNotFoundError]; a parse error is not logged. *)
Theorem init_malformed_yaml yaml_safe_load c name project zone w text e fuel :
  files c (ComputeResource.config_path name) = inr text ->
  yaml_safe_load text = inl e ->
  3 <= fuel ->
  run c fuel (ComputeResource.__init__ yaml_safe_load name project zone) w =
    (Raised e,
     {| polls := polls w;
        trace := trace w ++
          AOpen (ComputeResource.config_path name) ::
          (if is_file_not_found e
           then [ALogError ("Could not find config at path `"
                            ++ ComputeResource.config_path name ++ "`")]
           else []) |}).
Proof.
  intros Hfile Hyaml Hfuel. replace fuel with (3 + (fuel - 3)) by lia.
  assert (Hparsed : parsed yaml_safe_load c name = inl e).
  { unfold parsed. now rewrite Hfile. }
  rewrite (init_fails _ _ _ _ _ _ _ _ Hparsed).
  destruct (is_file_not_found e); unfold record; simpl;
    now rewrite <- ?app_assoc.
Qed.

Lemma init_malformed_yaml_witness :
  run (sample_env_with (inr tt) (inr pending) []) 3
    (ComputeResource.__init__ more_safe_load "unclosed" "my-project" "us-east1-b")
    start
  = (Raised YAMLError,
     {| polls := 0; trace := [AOpen "configs/unclosed/config.yml"] |}).
Proof.
  apply (init_malformed_yaml more_safe_load
           (sample_env_with (inr tt) (inr pending) [])
           "unclosed" "my-project" "us-east1-b" start unclosed_yaml YAMLError 3);
    reflexivity || lia.
Defined.

(** X8: when the document is a mapping that lacks one of the three keys, the
    loader raises [KeyError] for the first missing key in the order
    instance_family, instance_project, machine_type; no descriptor is built
    and nothing is logged. *)
Theorem init_missing_key yaml_safe_load c name project zone w text entries
    key fuel :
  files c (ComputeResource.config_path name) = inr text ->
  yaml_safe_load text = inr (VDict entries) ->
  first_missing entries = Some key ->
  2 <= fuel ->
  run c fuel (ComputeResource.__init__ yaml_safe_load name project zone) w =
    (Raised (KeyError key),
     {| polls := polls w;
        trace := trace w ++ [AOpen (ComputeResource.config_path name)] |}).
Proof.
  intros Hfile Hyaml Hkey Hfuel. replace fuel with (2 + (fuel - 2)) by lia.
  rewrite (init_file _ _ _ _ _ _ _ _ _ Hfile Hyaml).
  unfold first_missing, config_keys in Hkey. simpl in Hkey. simpl.
  destruct (lookup "instance_family" entries); simpl in Hkey;
    [|inversion Hkey; reflexivity].
  destruct (lookup "instance_project" entries); simpl in Hkey;
    [|inversion Hkey; reflexivity].
  destruct (lookup "machine_type" entries); simpl in Hkey;
    [discriminate | inversion Hkey; reflexivity].
Qed.

Lemma init_missing_key_witness :
  run (sample_env_with (inr tt) (inr pending) []) 2
    (ComputeResource.__init__ more_safe_load "no-project" "my-project" "us-east1-b")
    start
  = (Raised (KeyError "instance_project"),
     {| polls := 0; trace := [AOpen "configs/no-project/config.yml"] |}).
Proof.
  apply (init_missing_key more_safe_load
           (sample_env_with (inr tt) (inr pending) [])
           "no-project" "my-project" "us-east1-b" start no_project_yaml
           [("instance_family", VStr "debian-12");
            ("machine_type", VStr "e2-medium")]
           "instance_project" 2);
    reflexivity || lia.
Defined.

(** X9: when the document is not a mapping (an empty file, which parses to
    null, or a scalar or a sequence), the loader raises [TypeError] at the
    first subscript. *)
Theorem init_not_a_mapping yaml_safe_load c name project zone w text info fuel :
  files c (ComputeResource.config_path name) = inr text ->
  yaml_safe_load text = inr info ->
  is_mapping info = false ->
  2 <= fuel ->
  run c fuel (ComputeResource.__init__ yaml_safe_load name project zone) w =
    (Raised TypeError,
     {| polls := polls w;
        trace := trace w ++ [AOpen (ComputeResource.config_path name)] |}).
Proof.
  intros Hfile Hyaml Hinfo Hfuel. replace fuel with (2 + (fuel - 2)) by lia.
  rewrite (init_file _ _ _ _ _ _ _ _ _ Hfile Hyaml).
  destruct info; try reflexivity. discriminate.
Qed.

Lemma init_not_a_mapping_witness :
  run (sample_env_with (inr tt) (inr pending) []) 2
    (ComputeResource.__init__ more_safe_load "empty" "my-project" "us-east1-b")
    start
  = (Raised TypeError,
     {| polls := 0; trace := [AOpen "configs/empty/config.yml"] |}).
Proof.
  apply (init_not_a_mapping more_safe_load
           (sample_env_with (inr tt) (inr pending) [])
           "empty" "my-project" "us-east1-b" start "" VNone 2);
    reflexivity || lia.
Defined.

(** X10: the loader returns a descriptor [d] exactly when the file is there,
    parses, and has the three keys, [d] holding their values and the
    caller's name, project and zone: there is no other way to obtain a
    descriptor, and no default is ever filled in. *)
Theorem init_returns_iff_loaded yaml_safe_load c name project zone w d :
  (exists fuel w',
     run c fuel (ComputeResource.__init__ yaml_safe_load name project zone) w
     = (Returned d, w')) <->
  loaded yaml_safe_load c name project zone d.
Proof.
  split.
  - intros (fuel & w' & Hrun). apply init_returns. now exists fuel, w, w'.
  - intros (text & info & Hfile & Hyaml & Hf & Hp & Hm & Hn & Hpr & Hz).
    exists 2. eexists. change 2 with (2 + 0).
    rewrite (init_file _ _ _ _ _ _ _ _ _ Hfile Hyaml), Hf, Hp, Hm.
    destruct d. simpl in *. subst. reflexivity.
Qed.

Lemma init_returns_iff_loaded_witness :
  loaded sample_safe_load (sample_env []) "worker-2" "my-project" "us-east1-b"
    worker_2.
Proof.
  apply (proj1 (init_returns_iff_loaded sample_safe_load (sample_env [])
                  "worker-2" "my-project" "us-east1-b" start worker_2)).
  exists 2, (record (AOpen "configs/worker-2/config.yml") start). reflexivity.
Defined.

(** X11: whatever happens, the loader opens the one file
    [configs/<name>/config.yml] and does nothing else, except for the error
    line, which it logs only when its [try] block (the [open] or the parse)
    raised a [FileNotFoundError]: it contacts no provider, sleeps and prints
    nothing. *)
Theorem init_only_opens_config yaml_safe_load c name project zone fuel w out w' :
  run c fuel (ComputeResource.__init__ yaml_safe_load name project zone) w
    = (out, w') ->
  polls w' = polls w /\
  (trace w' = trace w \/
   trace w' = (trace w ++ [AOpen (ComputeResource.config_path name)])%list \/
   (exists e, parsed yaml_safe_load c name = inl e /\
              is_file_not_found e = true) /\
   trace w' = (trace w ++
     [AOpen (ComputeResource.config_path name);
      ALogError ("Could not find config at path `"
                 ++ ComputeResource.config_path name ++ "`")])%list).
Proof.
  intros Hrun.
  destruct fuel as [|fuel].
  { inversion Hrun; subst. auto. }
  destruct fuel as [|fuel].
  { unfold ComputeResource.__init__ in Hrun.
    rewrite run_bind_trigger in Hrun. answer_in Hrun.
    inversion Hrun; subst. auto. }
  destruct (parsed yaml_safe_load c name) as [e|info] eqn:Hparsed.
  - destruct (is_file_not_found e) eqn:Hfnf.
    + destruct fuel as [|fuel].
      * unfold ComputeResource.__init__ in Hrun.
        rewrite run_bind_trigger in Hrun. answer_in Hrun.
        change (match files c (ComputeResource.config_path name) with
                | inl e0 => inl e0
                | inr text => yaml_safe_load text
                end) with (parsed yaml_safe_load c name) in Hrun.
        rewrite Hparsed, Hfnf in Hrun.
        rewrite run_bind_trigger in Hrun. answer_in Hrun.
        inversion Hrun; subst. simpl. rewrite <- app_assoc.
        split; [reflexivity|]. right. right.
        split; [exists e; split; [reflexivity | assumption] | reflexivity].
      * change (S (S (S fuel))) with (3 + fuel) in Hrun.
        rewrite (init_fails _ _ _ _ _ _ _ _ Hparsed), Hfnf in Hrun.
        inversion Hrun; subst. simpl. rewrite <- app_assoc.
        split; [reflexivity|]. right. right.
        split; [exists e; split; [reflexivity | assumption] | reflexivity].
    + change (S (S fuel)) with (2 + fuel) in Hrun.
      rewrite (init_fails_quietly _ _ _ _ _ _ _ _ Hparsed Hfnf) in Hrun.
      inversion Hrun; subst. auto.
  - change (S (S fuel)) with (2 + fuel) in Hrun.
    rewrite (init_parsed _ _ _ _ _ _ _ _ Hparsed) in Hrun.
    inversion Hrun; subst. auto.
Qed.

Lemma init_only_opens_config_witness :
  0 = 0 /\
  ([AOpen "configs/worker-9/config.yml";
    ALogError "Could not find config at path `configs/worker-9/config.yml`"] = [] \/
   [AOpen "configs/worker-9/config.yml";
    ALogError "Could not find config at path `configs/worker-9/config.yml`"]
     = ([] ++ [AOpen (ComputeResource.config_path "worker-9")])%list \/
   (exists e, parsed sample_safe_load (sample_env []) "worker-9" = inl e /\
              is_file_not_found e = true) /\
   [AOpen "configs/worker-9/config.yml";
    ALogError "Could not find config at path `configs/worker-9/config.yml`"]
     = ([] ++ [AOpen (ComputeResource.config_path "worker-9");
               ALogError ("Could not find config at path `"
                          ++ ComputeResource.config_path "worker-9" ++ "`")])%list).
Proof.
  apply (init_only_opens_config sample_safe_load (sample_env [])
           "worker-9" "my-project" "us-east1-b" 3 start
           (Raised (FileNotFoundError "configs/worker-9/config.yml"))
           {| polls := 0;
              trace := [AOpen "configs/worker-9/config.yml";
                        ALogError "Could not find config at path `configs/worker-9/config.yml`"] |}).
  reflexivity.
Defined.

(** ** More on the lifecycle requests *)

Lemma run_trigger_1 {F X} `{F -< pyE} c (e : F X) w :
  run c 1 (trigger e) w =
  match handle c (subevent _ e) w with
  | (inl ex, w') => (Raised ex, w')
  | (inr _, w') => (Running, w')
  end.
Proof.
  simpl. destruct (handle c (subevent X e) w) as [[ex|x] w1]; reflexivity.
Qed.

(** X12: when the image lookup answers but ["selfLink"] cannot be read from
    the answer, [create] raises the exception of that subscript, [KeyError
    "selfLink"] for a mapping without the key and [TypeError] otherwise.  The
    lookup is the only request made: no instance is inserted. *)
Theorem create_no_self_link py_str c self w image_response fuel :
  images_getFromFamily c (ComputeResource.instance_project self)
                         (ComputeResource.instance_family self)
    = inr image_response ->
  contains "selfLink" image_response = false ->
  2 <= fuel ->
  run c fuel (ComputeResource.create py_str self) w =
    (Raised (match image_response with
             | VDict _ => KeyError "selfLink"
             | _ => TypeError
             end),
     {| polls := polls w;
        trace := trace w ++
          [AGetFromFamily (ComputeResource.instance_project self)
                          (ComputeResource.instance_family self)] |}).
Proof.
  intros Himage Hlink Hfuel.
  replace fuel with (2 + (fuel - 2)) by lia.
  apply run_more; [|destruct image_response; discriminate].
  unfold ComputeResource.create.
  rewrite run_bind_trigger. answer. rewrite Himage.
  rewrite run_bind_lift.
  destruct image_response; try reflexivity.
  simpl in *. destruct (lookup "selfLink" entries); [discriminate | reflexivity].
Qed.

Lemma create_no_self_link_witness :
  run {| files := fun path => inl (FileNotFoundError path);
         discovery_build := inr tt;
         images_getFromFamily := fun _ _ => inr (VDict [("name", VStr "debian-12")]);
         instances_insert := fun _ _ _ => inr pending;
         instances_delete := fun _ _ _ => inr pending;
         zoneOperations_get := fun _ _ _ _ => inr done |}
      2 (ComputeResource.create builtin_str worker_1) start
  = (Raised (KeyError "selfLink"),
     {| polls := 0;
        trace := [AGetFromFamily (VStr "debian-cloud") (VStr "debian-12")] |}).
Proof.
  apply (create_no_self_link builtin_str
           {| files := fun path => inl (FileNotFoundError path);
              discovery_build := inr tt;
              images_getFromFamily :=
                fun _ _ => inr (VDict [("name", VStr "debian-12")]);
              instances_insert := fun _ _ _ => inr pending;
              instances_delete := fun _ _ _ => inr pending;
              zoneOperations_get := fun _ _ _ _ => inr done |}
           worker_1 start (VDict [("name", VStr "debian-12")]) 2);
    reflexivity || lia.
Defined.

(** X13: however [create] ends and however long it runs, it makes at most two
    requests, the image lookup first and then one insert, the insert only
    when the lookup answered with a [selfLink], and its body built from that
    [selfLink]; it never queries an operation, so it does not wait for the
    instance to exist. *)
Theorem create_requests_in_order py_str c self fuel w out w' :
  run c fuel (ComputeResource.create py_str self) w = (out, w') ->
  polls w' = polls w /\
  exists l,
    trace w' = (trace w ++ l)%list /\
    (l = [] \/
     l = [AGetFromFamily (ComputeResource.instance_project self)
                         (ComputeResource.instance_family self)] \/
     exists image_response source_disk_image,
       images_getFromFamily c (ComputeResource.instance_project self)
                              (ComputeResource.instance_family self)
         = inr image_response /\
       getitem image_response "selfLink" = inr source_disk_image /\
       l = [AGetFromFamily (ComputeResource.instance_project self)
                           (ComputeResource.instance_family self);
            AInsert (ComputeResource.project self) (ComputeResource.zone self)
                    (ComputeResource.config py_str self source_disk_image)]).
Proof.
  intros Hrun.
  destruct fuel as [|fuel].
  { inversion Hrun; subst. split; [reflexivity|]. exists [].
    rewrite app_nil_r. auto. }
  destruct (images_getFromFamily c (ComputeResource.instance_project self)
              (ComputeResource.instance_family self))
    as [e|image_response] eqn:Himage.
  { rewrite (create_lookup_fails _ _ _ _ _ _ Himage) in Hrun.
    inversion Hrun; subst. split; [reflexivity|]. eexists. split; [reflexivity|].
    auto. }
  destruct fuel as [|fuel].
  { unfold ComputeResource.create in Hrun.
    rewrite run_bind_trigger in Hrun. answer_in Hrun. rewrite Himage in Hrun.
    inversion Hrun; subst. split; [reflexivity|]. eexists. split; [reflexivity|].
    auto. }
  destruct (getitem image_response "selfLink") as [e|image] eqn:Hlink.
  { unfold ComputeResource.create in Hrun.
    rewrite run_bind_trigger in Hrun. answer_in Hrun. rewrite Himage in Hrun.
    rewrite run_bind_lift, Hlink in Hrun.
    inversion Hrun; subst. split; [reflexivity|]. eexists. split; [reflexivity|].
    auto. }
  assert (Hl : polls w' = polls w /\
               trace w' = (trace w ++
                 [AGetFromFamily (ComputeResource.instance_project self)
                                 (ComputeResource.instance_family self);
                  AInsert (ComputeResource.project self)
                          (ComputeResource.zone self)
                          (ComputeResource.config py_str self image)])%list).
  { destruct fuel as [|fuel].
    - unfold ComputeResource.create in Hrun.
      rewrite run_bind_trigger in Hrun. answer_in Hrun. rewrite Himage in Hrun.
      rewrite run_bind_lift, Hlink in Hrun.
      rewrite run_trigger_1 in Hrun. answer_in Hrun.
      destruct (instances_insert c _ _ _); inversion Hrun; subst; simpl;
        rewrite <- app_assoc; auto.
    - change (S (S (S fuel))) with (3 + fuel) in Hrun.
      rewrite create_runs, Himage, Hlink in Hrun. cbv zeta in Hrun.
      inversion Hrun; subst. simpl. rewrite <- app_assoc. auto. }
  destruct Hl as [Hpolls Htrace]. split; [exact Hpolls|].
  eexists. split; [exact Htrace|]. right. right.
  exists image_response, image. auto.
Qed.

Lemma create_requests_in_order_witness :
  0 = 0 /\
  exists l,
    [AGetFromFamily (VStr "debian-cloud") (VStr "debian-12")] = ([] ++ l)%list /\
    (l = [] \/
     l = [AGetFromFamily (VStr "debian-cloud") (VStr "debian-12")] \/
     exists image_response source_disk_image,
       images_getFromFamily (sample_env []) (VStr "debian-cloud") (VStr "debian-12")
         = inr image_response /\
       getitem image_response "selfLink" = inr source_disk_image /\
       l = [AGetFromFamily (VStr "debian-cloud") (VStr "debian-12");
            AInsert "my-project" "us-east1-b"
                    (ComputeResource.config builtin_str worker_1 source_disk_image)]).
Proof.
  apply (create_requests_in_order builtin_str (sample_env []) worker_1 1 start
           Running
           {| polls := 0;
              trace := [AGetFromFamily (VStr "debian-cloud") (VStr "debian-12")] |}).
  reflexivity.
Defined.

(** X14: every insert request [create] makes is for the descriptor's own
    instance name and asks for the same fixed surroundings: one network
    interface on the default network with one external NAT access, and the
    default service account with exactly the two scopes for writing to
    storage and to logging. *)
Theorem create_request_surroundings py_str c self fuel w out w' l
    project zone body :
  run c fuel (ComputeResource.create py_str self) w = (out, w') ->
  trace w' = (trace w ++ l)%list ->
  In (AInsert project zone body) l ->
  getitem body "name" = inr (VStr (ComputeResource.instance_name self)) /\
  getitem body "networkInterfaces" =
    inr (VList [VDict [("network", VStr "global/networks/default");
                       ("accessConfigs",
                        VList [VDict [("type", VStr "ONE_TO_ONE_NAT");
                                      ("name", VStr "External NAT")]])]]) /\
  getitem body "serviceAccounts" =
    inr (VList [VDict [("email", VStr "default");
                       ("scopes",
                        VList [VStr "https://www.googleapis.com/auth/devstorage.read_write";
                               VStr "https://www.googleapis.com/auth/logging.write"])]]).
Proof.
  intros Hrun Htrace Hin.
  destruct (emits_create_on py_str c self _ _ _ _ Hrun) as (l0 & Hl0 & Fl0).
  rewrite Htrace in Hl0. apply app_inv_head in Hl0. subst l0.
  pose proof (proj1 (Forall_forall _ _) Fl0 _ Hin) as Hreq.
  destruct Hreq as (_ & _ & image & ->). repeat split.
Qed.

Lemma create_request_surroundings_witness :
  getitem (ComputeResource.config builtin_str worker_1
             (VStr "projects/debian-cloud/global/images/debian-12-bookworm"))
          "name"
  = inr (VStr "worker-1").
Proof.
  apply (create_request_surroundings builtin_str (sample_env []) worker_1 3 start
           (Returned pending)
           {| polls := 0;
              trace := [AGetFromFamily (VStr "debian-cloud") (VStr "debian-12");
                        AInsert "my-project" "us-east1-b"
                          (ComputeResource.config builtin_str worker_1
                             (VStr "projects/debian-cloud/global/images/debian-12-bookworm"))] |}
           [AGetFromFamily (VStr "debian-cloud") (VStr "debian-12");
            AInsert "my-project" "us-east1-b"
              (ComputeResource.config builtin_str worker_1
                 (VStr "projects/debian-cloud/global/images/debian-12-bookworm"))]
           "my-project" "us-east1-b"
           (ComputeResource.config builtin_str worker_1
              (VStr "projects/debian-cloud/global/images/debian-12-bookworm"))
           eq_refl eq_refl (or_intror (or_introl eq_refl))).
Defined.

(** ** The commands from end to end *)

Lemma wait_returns_exact c p z o w n result :
  prefix c p z o w n ->
  zoneOperations_get c (polls w + n) p z o = inr result ->
  getitem result "status" = inr (VStr "DONE") ->
  contains "error" result = false ->
  run c (3 * n + 3) (wait_for_operation p z o) w =
    (Returned result,
     {| polls := polls w + S n;
        trace := trace w ++ turns p z o n ++ [AGet p z o; APrint "done."] |}).
Proof.
  intros Hp Hreply Hstatus Herr.
  rewrite wait_prefix by assumption.
  rewrite wait_step. cbv zeta. simpl polls.
  rewrite Hreply, Hstatus. simpl. rewrite Herr.
  now rewrite printed_after.
Qed.



Section EndToEnd.

Variable yaml_safe_load : string -> exn + value.
Variable py_str : value -> string.
Variable c : environment.
Variables name project zone : string.
Variable d : ComputeResource.t.
Hypothesis Hloaded : loaded yaml_safe_load c name project zone d.

(** The loader's part of a command. *)
Lemma init_loaded w :
  run c 2 (ComputeResource.__init__ yaml_safe_load name project zone) w =
  (Returned d, record (AOpen (ComputeResource.config_path name)) w).
Proof.
  destruct Hloaded as (text & info & Hfile & Hyaml & Hf & Hp & Hm & Hn & Hpr & Hz).
  change 2 with (2 + 0).
  rewrite (init_file _ _ _ _ _ _ _ _ _ Hfile Hyaml), Hf, Hp, Hm.
  destruct d. simpl in *. subst. reflexivity.
Qed.

(** What is left of the [create] command once the descriptor is there. *)
Let create_rest (compute_resource : ComputeResource.t) : itree pyE unit :=
  trigger (LogInfo ("Issuing create command for instance `" ++ name
                    ++ "` in zone " ++ zone ++ " and project " ++ project
                    ++ "...")) ;;
  trigger Build ;;
  create_operation <- ComputeResource.create py_str compute_resource ;;
  name <- lift (getitem create_operation "name") ;;
  wait_for_operation project zone name ;;
  trigger (LogInfo "Instance created successfully!").

Let delete_rest (compute_resource : ComputeResource.t) : itree pyE unit :=
  trigger (LogInfo ("Issuing delete command for instance `" ++ name
                    ++ "` in zone " ++ zone ++ " and project " ++ project
                    ++ "...")) ;;
  trigger Build ;;
  delete_operation <- ComputeResource.delete compute_resource ;;
  name <- lift (getitem delete_operation "name") ;;
  wait_for_operation project zone name ;;
  trigger (LogInfo "Instance deleted successfully!").

Lemma create_after_init fuel out w' :
  run c fuel (create_rest d)
    (record (AOpen (ComputeResource.config_path name)) start) = (out, w') ->
  out <> Running ->
  run c (2 + fuel) (create yaml_safe_load py_str name project zone) start
    = (out, w').
Proof.
  intros Hrest Hout.
  exact (run_bind_returns c 2 _ create_rest _ _ _ _ _ _
           (init_loaded start) Hrest Hout).
Qed.

Lemma delete_after_init fuel out w' :
  run c fuel (delete_rest d)
    (record (AOpen (ComputeResource.config_path name)) start) = (out, w') ->
  out <> Running ->
  run c (2 + fuel) (delete yaml_safe_load name project zone) start
    = (out, w').
Proof.
  intros Hrest Hout.
  exact (run_bind_returns c 2 _ delete_rest _ _ _ _ _ _
           (init_loaded start) Hrest Hout).
Qed.

End EndToEnd.



(** X16: the [delete] command from end to end.  With a loadable
    configuration, a client that can be built, a delete request that answers
    with a named operation, and [n] non-terminal statuses followed by DONE
    without error, the command returns after sending exactly one request,
    the deletion of the named instance, querying its operation [n + 1]
    times, printing "done." and logging success. *)
Theorem delete_command_succeeds yaml_safe_load c name project zone d
    op opname n result fuel :
  loaded yaml_safe_load c name project zone d ->
  discovery_build c = inr tt ->
  instances_delete c project zone name = inr op ->
  getitem op "name" = inr opname ->
  prefix c project zone opname start n ->
  zoneOperations_get c n project zone opname = inr result ->
  getitem result "status" = inr (VStr "DONE") ->
  contains "error" result = false ->
  3 * n + 10 <= fuel ->
  run c fuel (delete yaml_safe_load name project zone) start =
    (Returned tt,
     {| polls := S n;
        trace :=
          [AOpen (ComputeResource.config_path name);
           ALogInfo ("Issuing delete command for instance `" ++ name
                     ++ "` in zone " ++ zone ++ " and project " ++ project
                     ++ "...");
           ABuild;
           ADelete project zone name]
          ++ turns project zone opname n
          ++ [AGet project zone opname; APrint "done.";
              ALogInfo "Instance deleted successfully!"] |}).
Proof.
  intros Hloaded Hbuild Hdelete Hname Hp Hreply Hstatus Herr Hfuel.
  assert (Hd : ComputeResource.instance_name d = name /\
               ComputeResource.project d = project /\
               ComputeResource.zone d = zone).
  { destruct Hloaded as (_ & _ & _ & _ & _ & _ & _ & H0 & H1 & H2). auto. }
  destruct Hd as (Hdn & Hdp & Hdz).
  replace fuel with ((2 + (3 + ((3 * n + 3) + 2))) + (fuel - (3 * n + 10)))
    by lia.
  apply run_more; [|discriminate].
  apply (delete_after_init _ _ _ _ _ _ Hloaded); [|discriminate].
  cbv zeta. change (3 + (3 * n + 3 + 2)) with (S (S (S (3 * n + 3 + 2)))).
  rewrite run_bind_trigger. answer.
  rewrite run_bind_trigger. answer. rewrite Hbuild.
  unfold ComputeResource.delete.
  rewrite run_bind_trigger. answer. rewrite Hdn, Hdp, Hdz, Hdelete.
  replace (3 * n + 3 + 2) with (S (3 * n + 3 + 1)) by lia.
  rewrite run_bind_lift, Hname.
  replace (S (3 * n + 3 + 1)) with ((3 * n + 3) + 2) by lia.
  eapply run_bind_returns.
  - apply wait_returns_exact;
      [exact Hp | exact Hreply | exact Hstatus | exact Herr].
  - rewrite run_trigger. answer. unfold record. simpl.
    rewrite <- !app_assoc. reflexivity.
  - discriminate.
Qed.

Lemma delete_command_succeeds_witness :
  run (sample_env [inr done]) 10
    (delete sample_safe_load "worker-1" "my-project" "us-east1-b") start
  = (Returned tt,
     {| polls := 1;
        trace :=
          [AOpen "configs/worker-1/config.yml";
           ALogInfo "Issuing delete command for instance `worker-1` in zone us-east1-b and project my-project...";
           ABuild;
           ADelete "my-project" "us-east1-b" "worker-1";
           AGet "my-project" "us-east1-b" (VStr "operation-1");
           APrint "done.";
           ALogInfo "Instance deleted successfully!"] |}).
Proof.
  apply (delete_command_succeeds sample_safe_load (sample_env [inr done])
           "worker-1" "my-project" "us-east1-b" worker_1
           pending (VStr "operation-1") 0 done 10);
    try reflexivity; try lia.
  - exists worker_yaml,
      (VDict [("instance_family", VStr "debian-12");
              ("instance_project", VStr "debian-cloud");
              ("machine_type", VStr "e2-medium")]).
    repeat split; reflexivity.
  - intros k Hk. lia.
Defined.

Lemma create_returned py_str c self fuel w op w' :
  run c fuel (ComputeResource.create py_str self) w = (Returned op, w') ->
  exists image_response image,
    images_getFromFamily c (ComputeResource.instance_project self)
                           (ComputeResource.instance_family self)
      = inr image_response /\
    getitem image_response "selfLink" = inr image /\
    instances_insert c (ComputeResource.project self)
      (ComputeResource.zone self) (ComputeResource.config py_str self image)
      = inr op /\
    polls w' = polls w.
Proof.
  intros Hrun.
  pose proof (run_more _ _ _ _ _ _ Hrun ltac:(discriminate) 3) as Hmore.
  replace (fuel + 3) with (3 + fuel) in Hmore by lia.
  rewrite create_runs in Hmore.
  destruct (images_getFromFamily c _ _) as [e|image_response]; [discriminate|].
  destruct (getitem image_response "selfLink") as [e|image] eqn:Hlink;
    [discriminate|].
  cbv zeta in Hmore. exists image_response, image.
  destruct (instances_insert c _ _ _) as [e|op']; [discriminate|].
  inversion Hmore; subst. auto.
Qed.

Lemma delete_returned c self fuel w op w' :
  run c fuel (ComputeResource.delete self) w = (Returned op, w') ->
  instances_delete c (ComputeResource.project self)
    (ComputeResource.zone self) (ComputeResource.instance_name self) = inr op /\
  polls w' = polls w.
Proof.
  intros Hrun.
  pose proof (run_more _ _ _ _ _ _ Hrun ltac:(discriminate) 2) as Hmore.
  replace (fuel + 2) with (2 + fuel) in Hmore by lia.
  rewrite delete_runs in Hmore.
  destruct (instances_delete c _ _ _) as [e|op']; [discriminate|].
  inversion Hmore; subst. auto.
Qed.

Lemma init_returned_polls yaml_safe_load c name project zone fuel w d w' :
  run c fuel (ComputeResource.__init__ yaml_safe_load name project zone) w
    = (Returned d, w') ->
  loaded yaml_safe_load c name project zone d /\ polls w' = polls w.
Proof.
  intros Hrun.
  assert (Hloaded : loaded yaml_safe_load c name project zone d).
  { apply init_returns. now exists fuel, w, w'. }
  split; [exact Hloaded|].
  pose proof (run_more _ _ _ _ _ _ Hrun ltac:(discriminate) 2) as H1.
  pose proof (run_more _ _ _ _ _ _ (init_loaded _ _ _ _ _ _ Hloaded w)
                ltac:(discriminate) fuel) as H2.
  replace (fuel + 2) with (2 + fuel) in H1 by lia.
  rewrite H1 in H2. inversion H2. reflexivity.
Qed.

(** The status queries of a command, seen from the world they start in. *)
Lemma wait_returned_from c p z o fuel w result w' :
  polls w = 0 ->
  run c fuel (wait_for_operation p z o) w = (Returned result, w') ->
  exists n,
    prefix c p z o start n /\
    zoneOperations_get c n p z o = inr result /\
    getitem result "status" = inr (VStr "DONE") /\
    contains "error" result = false.
Proof.
  intros Hw Hrun.
  destruct (wait_outcome _ _ _ _ _ _ _ _ Hrun ltac:(discriminate))
    as (m & Hm & _ & _ & Hout).
  rewrite Hw in Hout. simpl in Hout.
  exists m. split.
  { intros k Hk. specialize (Hm k Hk). now rewrite Hw in Hm. }
  destruct (zoneOperations_get c m p z o) as [e|reply]; [discriminate|].
  destruct (getitem reply "status") as [e|status] eqn:Hstatus; [discriminate|].
  destruct Hout as [-> Hout].
  destruct (getitem reply "error") as [e|err] eqn:Herr; [|discriminate].
  inversion Hout; subst. repeat split; try assumption.
  destruct (contains "error" reply) eqn:Hc; [|reflexivity].
  apply contains_getitem in Hc. destruct Hc as [v Hv]. congruence.
Qed.

(** X17: the [create] command returns only when everything before it went
    through: the configuration loaded, the client was built, the image lookup
    answered with a [selfLink], the insert was accepted and named its
    operation, and the first terminal status of that operation was DONE
    without an error entry.  In every other case the command does not
    return normally, so success is never reported for an instance that was
    not created. *)
Theorem create_command_returns_only_if yaml_safe_load py_str c name project zone
    fuel w' :
  run c fuel (create yaml_safe_load py_str name project zone) start
    = (Returned tt, w') ->
  exists d image_response image op opname n result,
    loaded yaml_safe_load c name project zone d /\
    discovery_build c = inr tt /\
    images_getFromFamily c (ComputeResource.instance_project d)
                           (ComputeResource.instance_family d)
      = inr image_response /\
    getitem image_response "selfLink" = inr image /\
    instances_insert c project zone (ComputeResource.config py_str d image)
      = inr op /\
    getitem op "name" = inr opname /\
    prefix c project zone opname start n /\
    zoneOperations_get c n project zone opname = inr result /\
    getitem result "status" = inr (VStr "DONE") /\
    contains "error" result = false.
Proof.
  intros Hrun. unfold create in Hrun.
  apply run_bind_returned in Hrun. destruct Hrun as (d & w1 & f1 & Hinit & Hrun).
  apply init_returned_polls in Hinit. destruct Hinit as [Hloaded Hw1].
  apply run_bind_returned in Hrun. destruct Hrun as (u & w2 & f2 & Hlog & Hrun).
  apply run_trigger_returned in Hlog. answer_in Hlog.
  inversion Hlog; subst w2. clear Hlog.
  apply run_bind_returned in Hrun. destruct Hrun as (u' & w3 & f3 & Hb & Hrun).
  apply run_trigger_returned in Hb. answer_in Hb.
  inversion Hb as [[Hbuild Hw3]]. subst w3. clear Hb.
  apply run_bind_returned in Hrun. destruct Hrun as (op & w4 & f4 & Hc & Hrun).
  apply create_returned in Hc.
  destruct Hc as (image_response & image & Himage & Hlink & Hinsert & Hw4).
  apply run_bind_returned in Hrun. destruct Hrun as (opname & w5 & f5 & Hn & Hrun).
  apply run_lift_returned in Hn. destruct Hn as [Hname ->].
  apply run_bind_returned in Hrun. destruct Hrun as (result & w6 & f6 & Hwait & _).
  apply wait_returned_from in Hwait; [|simpl in *; congruence].
  destruct Hwait as (n & Hp & Hreply & Hstatus & Herr).
  assert (Hd : ComputeResource.project d = project /\
               ComputeResource.zone d = zone).
  { destruct Hloaded as (_ & _ & _ & _ & _ & _ & _ & _ & H1 & H2). auto. }
  destruct Hd as [Hdp Hdz]. rewrite Hdp, Hdz in Hinsert.
  exists d, image_response, image, op, opname, n, result.
  destruct u'. repeat (split; [assumption|]). assumption.
Qed.

Lemma create_command_returns_only_if_witness :
  exists d image_response image op opname n result,
    loaded sample_safe_load (sample_env [inr done])
      "worker-1" "my-project" "us-east1-b" d /\
    discovery_build (sample_env [inr done]) = inr tt /\
    images_getFromFamily (sample_env [inr done])
      (ComputeResource.instance_project d) (ComputeResource.instance_family d)
      = inr image_response /\
    getitem image_response "selfLink" = inr image /\
    instances_insert (sample_env [inr done]) "my-project" "us-east1-b"
      (ComputeResource.config builtin_str d image) = inr op /\
    getitem op "name" = inr opname /\
    prefix (sample_env [inr done]) "my-project" "us-east1-b" opname start n /\
    zoneOperations_get (sample_env [inr done]) n "my-project" "us-east1-b" opname
      = inr result /\
    getitem result "status" = inr (VStr "DONE") /\
    contains "error" result = false.
Proof.
  apply (create_command_returns_only_if sample_safe_load builtin_str
           (sample_env [inr done]) "worker-1" "my-project" "us-east1-b" 11
           {| polls := 1;
              trace :=
                [AOpen "configs/worker-1/config.yml";
                 ALogInfo "Issuing create command for instance `worker-1` in zone us-east1-b and project my-project...";
                 ABuild;
                 AGetFromFamily (VStr "debian-cloud") (VStr "debian-12");
                 AInsert "my-project" "us-east1-b"
                   (ComputeResource.config builtin_str worker_1
                      (VStr "projects/debian-cloud/global/images/debian-12-bookworm"));
                 AGet "my-project" "us-east1-b" (VStr "operation-1");
                 APrint "done.";
                 ALogInfo "Instance created successfully!"] |}).
  reflexivity.
Defined.

(** X18: likewise the [delete] command returns only when the configuration
    loaded, the client was built, the delete request for the named instance
    was accepted and named its operation, and the first terminal status of
    that operation was DONE without an error entry. *)
Theorem delete_command_returns_only_if yaml_safe_load c name project zone
    fuel w' :
  run c fuel (delete yaml_safe_load name project zone) start
    = (Returned tt, w') ->
  exists d op opname n result,
    loaded yaml_safe_load c name project zone d /\
    discovery_build c = inr tt /\
    instances_delete c project zone name = inr op /\
    getitem op "name" = inr opname /\
    prefix c project zone opname start n /\
    zoneOperations_get c n project zone opname = inr result /\
    getitem result "status" = inr (VStr "DONE") /\
    contains "error" result = false.
Proof.
  intros Hrun. unfold delete in Hrun.
  apply run_bind_returned in Hrun. destruct Hrun as (d & w1 & f1 & Hinit & Hrun).
  apply init_returned_polls in Hinit. destruct Hinit as [Hloaded Hw1].
  apply run_bind_returned in Hrun. destruct Hrun as (u & w2 & f2 & Hlog & Hrun).
  apply run_trigger_returned in Hlog. answer_in Hlog.
  inversion Hlog; subst w2. clear Hlog.
  apply run_bind_returned in Hrun. destruct Hrun as (u' & w3 & f3 & Hb & Hrun).
  apply run_trigger_returned in Hb. answer_in Hb.
  inversion Hb as [[Hbuild Hw3]]. subst w3. clear Hb.
  apply run_bind_returned in Hrun. destruct Hrun as (op & w4 & f4 & Hc & Hrun).
  apply delete_returned in Hc. destruct Hc as (Hdelete & Hw4).
  apply run_bind_returned in Hrun. destruct Hrun as (opname & w5 & f5 & Hn & Hrun).
  apply run_lift_returned in Hn. destruct Hn as [Hname ->].
  apply run_bind_returned in Hrun. destruct Hrun as (result & w6 & f6 & Hwait & _).
  apply wait_returned_from in Hwait; [|simpl in *; congruence].
  destruct Hwait as (n & Hp & Hreply & Hstatus & Herr).
  assert (Hd : ComputeResource.instance_name d = name /\
               ComputeResource.project d = project /\
               ComputeResource.zone d = zone).
  { destruct Hloaded as (_ & _ & _ & _ & _ & _ & _ & Ha & Hb & Hc). auto. }
  destruct Hd as (Hdn & Hdp & Hdz). rewrite Hdn, Hdp, Hdz in Hdelete.
  exists d, op, opname, n, result.
  destruct u'. repeat (split; [assumption|]). assumption.
Qed.

Lemma delete_command_returns_only_if_witness :
  exists d op opname n result,
    loaded sample_safe_load (sample_env [inr done])
      "worker-1" "my-project" "us-east1-b" d /\
    discovery_build (sample_env [inr done]) = inr tt /\
    instances_delete (sample_env [inr done]) "my-project" "us-east1-b" "worker-1"
      = inr op /\
    getitem op "name" = inr opname /\
    prefix (sample_env [inr done]) "my-project" "us-east1-b" opname start n /\
    zoneOperations_get (sample_env [inr done]) n "my-project" "us-east1-b" opname
      = inr result /\
    getitem result "status" = inr (VStr "DONE") /\
    contains "error" result = false.
Proof.
  apply (delete_command_returns_only_if sample_safe_load
           (sample_env [inr done]) "worker-1" "my-project" "us-east1-b" 10
           {| polls := 1;
              trace :=
                [AOpen "configs/worker-1/config.yml";
                 ALogInfo "Issuing delete command for instance `worker-1` in zone us-east1-b and project my-project...";
                 ABuild;
                 ADelete "my-project" "us-east1-b" "worker-1";
                 AGet "my-project" "us-east1-b" (VStr "operation-1");
                 APrint "done.";
                 ALogInfo "Instance deleted successfully!"] |}).
  reflexivity.
Defined.



(** X20: when the provider rejects the delete request (the instance does not
    exist, say), the [delete] command raises the provider's exception
    unchanged; the request is not repeated and no operation is queried. *)
Theorem delete_command_rejected yaml_safe_load c name project zone d e fuel :
  loaded yaml_safe_load c name project zone d ->
  discovery_build c = inr tt ->
  instances_delete c project zone name = inl e ->
  5 <= fuel ->
  run c fuel (delete yaml_safe_load name project zone) start =
    (Raised e,
     {| polls := 0;
        trace :=
          [AOpen (ComputeResource.config_path name);
           ALogInfo ("Issuing delete command for instance `" ++ name
                     ++ "` in zone " ++ zone ++ " and project " ++ project
                     ++ "...");
           ABuild;
           ADelete project zone name] |}).
Proof.
  intros Hloaded Hbuild Hdelete Hfuel.
  assert (Hd : ComputeResource.instance_name d = name /\
               ComputeResource.project d = project /\
               ComputeResource.zone d = zone).
  { destruct Hloaded as (_ & _ & _ & _ & _ & _ & _ & Ha & Hb & Hc). auto. }
  destruct Hd as (Hdn & Hdp & Hdz).
  replace fuel with ((2 + 3) + (fuel - 5)) by lia.
  apply run_more; [|discriminate].
  apply (delete_after_init _ _ _ _ _ _ Hloaded); [|discriminate].
  cbv zeta.
  rewrite run_bind_trigger. answer.
  rewrite run_bind_trigger. answer. rewrite Hbuild.
  unfold ComputeResource.delete.
  rewrite run_bind_trigger. answer. rewrite Hdn, Hdp, Hdz, Hdelete.
  reflexivity.
Qed.

Lemma delete_command_rejected_witness :
  run (sample_env_with (inr tt) (inl not_found) []) 5
    (delete sample_safe_load "worker-1" "my-project" "us-east1-b") start
  = (Raised not_found,
     {| polls := 0;
        trace :=
          [AOpen "configs/worker-1/config.yml";
           ALogInfo "Issuing delete command for instance `worker-1` in zone us-east1-b and project my-project...";
           ABuild;
           ADelete "my-project" "us-east1-b" "worker-1"] |}).
Proof.
  apply (delete_command_rejected sample_safe_load
           (sample_env_with (inr tt) (inl not_found) [])
           "worker-1" "my-project" "us-east1-b" worker_1 not_found 5);
    try reflexivity; try lia.
  exists worker_yaml,
    (VDict [("instance_family", VStr "debian-12");
            ("instance_project", VStr "debian-cloud");
            ("machine_type", VStr "e2-medium")]).
  repeat split; reflexivity.
Defined.

(** X21: the configuration is loaded, and the issue line logged, before the
    client is built: when building the client raises, both commands raise
    that exception with the configuration already read, and no request of
    any kind has been made. *)
Theorem command_build_fails yaml_safe_load py_str c name project zone d e fuel :
  loaded yaml_safe_load c name project zone d ->
  discovery_build c = inl e ->
  4 <= fuel ->
  run c fuel (create yaml_safe_load py_str name project zone) start =
    (Raised e,
     {| polls := 0;
        trace :=
          [AOpen (ComputeResource.config_path name);
           ALogInfo ("Issuing create command for instance `" ++ name
                     ++ "` in zone " ++ zone ++ " and project " ++ project
                     ++ "...");
           ABuild] |}) /\
  run c fuel (delete yaml_safe_load name project zone) start =
    (Raised e,
     {| polls := 0;
        trace :=
          [AOpen (ComputeResource.config_path name);
           ALogInfo ("Issuing delete command for instance `" ++ name
                     ++ "` in zone " ++ zone ++ " and project " ++ project
                     ++ "...");
           ABuild] |}).
Proof.
  intros Hloaded Hbuild Hfuel.
  replace fuel with ((2 + 2) + (fuel - 4)) by lia.
  split; (apply run_more; [|discriminate]).
  - apply (create_after_init _ _ _ _ _ _ _ Hloaded); [|discriminate].
    cbv zeta.
    rewrite run_bind_trigger. answer.
    rewrite run_bind_trigger. answer. rewrite Hbuild. reflexivity.
  - apply (delete_after_init _ _ _ _ _ _ Hloaded); [|discriminate].
    cbv zeta.
    rewrite run_bind_trigger. answer.
    rewrite run_bind_trigger. answer. rewrite Hbuild. reflexivity.
Qed.

Lemma command_build_fails_witness :
  run (sample_env_with (inl (HttpError (VStr "discovery document unavailable"))) (inr pending) []) 4
    (create sample_safe_load builtin_str "worker-1" "my-project" "us-east1-b")
    start
  = (Raised (HttpError (VStr "discovery document unavailable")),
     {| polls := 0;
        trace :=
          [AOpen "configs/worker-1/config.yml";
           ALogInfo "Issuing create command for instance `worker-1` in zone us-east1-b and project my-project...";
           ABuild] |}).
Proof.
  apply (proj1 (command_build_fails sample_safe_load builtin_str
                  (sample_env_with (inl (HttpError (VStr "discovery document unavailable")))
                                   (inr pending) [])
                  "worker-1" "my-project" "us-east1-b" worker_1
                  (HttpError (VStr "discovery document unavailable")) 4
                  (ex_intro _ worker_yaml
                     (ex_intro _
                        (VDict [("instance_family", VStr "debian-12");
                                ("instance_project", VStr "debian-cloud");
                                ("machine_type", VStr "e2-medium")])
                        (conj eq_refl (conj eq_refl (conj eq_refl
                          (conj eq_refl (conj eq_refl (conj eq_refl
                            (conj eq_refl eq_refl)))))))))
                  eq_refl (le_n 4))).
Defined.


